(** * SpeciesCard: the species card, its detail, edit and delete dialogs

    A shallow embedding of [src/app/species/species-card.tsx] and the
    properties of its specification.

    The component is a React function component.  The embedding keeps its
    shape:
    - JavaScript strings are sequences of UTF-16 code units, numbers are
      IEEE 754 binary64 values, objects used as records of form values are
      finite maps from property names to values;
    - the component state (three [useState] flags and the [useForm] state)
      is a record; event handlers are computations in a small state monad
      that also logs the observable effects (backend requests, toasts,
      router refreshes);
    - an [async] handler is cut at its [await]: the part before it sends
      the request, the part after it runs when the backend answers, with
      an error or without, in the state of that moment; between the two
      the user may go on interacting;
    - the JSX the component returns is a tree whose handler props hold
      those computations. *)

From Stdlib Require Import ZArith NArith List String Ascii SpecFloat.
From stdpp Require Import base option list strings gmap fin_maps.

Local Open Scope Z_scope.
Local Open Scope list_scope.

(** ** JavaScript values *)

Module JS.

(** *** Strings

    A string is its sequence of UTF-16 code units. *)
Abbreviation jsstring := (list N).

(** String literals of the source are ASCII. *)
Definition lit (s : string) : jsstring :=
  map N_of_ascii (list_ascii_of_string s).

Arguments lit : simpl never.

(** [s.length] *)
Definition length (s : jsstring) : nat := List.length s.

(** [s.slice(0, n)] for a non-negative literal [n]: the code units at
    indices [0 .. min(n, length) - 1]. *)
Definition slice0 (n : nat) (s : jsstring) : jsstring := firstn n s.

(** WhiteSpace and LineTerminator code points of ECMA-262, the ones
    [String.prototype.trim] and [StringToNumber] strip. *)
Definition is_white_space (c : N) : bool :=
  ((9 <=? c) && (c <=? 13) ||
   (c =? 32) || (c =? 160) || (c =? 5760) ||
   ((8192 <=? c) && (c <=? 8202)) ||
   (c =? 8232) || (c =? 8233) || (c =? 8239) || (c =? 8287) ||
   (c =? 12288) || (c =? 65279))%N.

Fixpoint trimStart (s : jsstring) : jsstring :=
  match s with
  | c :: s' => if is_white_space c then trimStart s' else s
  | [] => []
  end.

Definition trimEnd (s : jsstring) : jsstring :=
  rev (trimStart (rev s)).

(** [s.trim()] *)
Definition trim (s : jsstring) : jsstring := trimEnd (trimStart s).

(** Only white space. *)
Definition blank (s : jsstring) : Prop :=
  Forall (fun c => is_white_space c = true) s.

(** Neither the first nor the last code unit is white space. *)
Definition tight (s : jsstring) : Prop :=
  (forall c, head s = Some c -> is_white_space c = false) /\
  (forall c, last s = Some c -> is_white_space c = false).

(** [ToBoolean] on a string: only the empty string is falsy. *)
Definition truthy (s : jsstring) : bool :=
  match s with [] => false | _ :: _ => true end.

(** [a == b] on two strings: the same sequence of code units. *)
Definition eq_string (a b : jsstring) : bool := bool_decide (a = b).

(** *** Numbers

    A number is a binary64 value. *)
Abbreviation number := spec_float.

Definition prec : Z := 53.
Definition emax : Z := 1024.

Definition NaN : number := S754_nan.
Definition zero : number := S754_zero false.

Definition is_NaN (x : number) : bool :=
  match x with S754_nan => true | _ => false end.

(** The binary64 value nearest to [(-1)^neg * m * 10^e] (ties to even). *)
Definition of_decimal (neg : bool) (m : N) (e : Z) : number :=
  match m with
  | N0 => S754_zero neg
  | Npos p =>
      if 0 <=? e
      then binary_normalize prec emax (cond_Zopp neg (Zpos p * 10 ^ e)) 0 neg
      else SFdiv prec emax (S754_finite neg p 0)
                 (S754_finite false (Z.to_pos (10 ^ (- e))) 0)
  end.

Definition digit_val (radix : N) (c : N) : option N :=
  let v := (if (48 <=? c) && (c <=? 57) then Some (c - 48)
            else if (97 <=? c) && (c <=? 122) then Some (c - 87)
            else if (65 <=? c) && (c <=? 90) then Some (c - 55)
            else None)%N in
  match v with
  | Some d => if (d <? radix)%N then Some d else None
  | None => None
  end.

(** The longest prefix of digits in [radix], as (value, count, rest). *)
Fixpoint digits (radix : N) (acc : N) (cnt : nat) (s : jsstring)
  : N * nat * jsstring :=
  match s with
  | c :: s' =>
      match digit_val radix c with
      | Some d => digits radix (acc * radix + d)%N (S cnt) s'
      | None => (acc, cnt, s)
      end
  | [] => (acc, cnt, [])
  end.

(** NonDecimalIntegerLiteral: [0x], [0o], [0b] and digits, no sign. *)
Definition non_decimal (s : jsstring) : option number :=
  match s with
  | 48%N :: p :: s' =>
      let radix :=
        (if (p =? 120) || (p =? 88) then Some 16
         else if (p =? 111) || (p =? 79) then Some 8
         else if (p =? 98) || (p =? 66) then Some 2
         else None)%N in
      match radix with
      | Some r =>
          match digits r 0 0 s' with
          | (v, S _, []) => Some (of_decimal false v 0)
          | _ => None
          end
      | None => None
      end
  | _ => None
  end.

(** ExponentPart, when present: [e] or [E], an optional sign, digits. *)
Definition exponent_part (s : jsstring) : option Z :=
  match s with
  | [] => Some 0
  | c :: s' =>
      if ((c =? 101) || (c =? 69))%N then
        let '(neg, s'') :=
          match s' with
          | 43%N :: t => (false, t)
          | 45%N :: t => (true, t)
          | _ => (false, s')
          end in
        match digits 10 0 0 s'' with
        | (v, S _, []) => Some (cond_Zopp neg (Z.of_N v))
        | _ => None
        end
      else None
  end.

(** StrUnsignedDecimalLiteral *)
Definition unsigned_decimal (neg : bool) (s : jsstring) : option number :=
  if bool_decide (s = lit "Infinity") then Some (S754_infinity neg)
  else
    let '(ip, ni, s1) := digits 10 0 0 s in
    let '(m, nf, s2) :=
      match s1 with
      | 46%N :: t =>
          let '(m, nf, s2) := digits 10 ip 0 t in (m, Some nf, s2)
      | _ => (ip, None, s1)
      end in
    let well_formed :=
      match ni, nf with
      | O, None | O, Some O => false
      | _, _ => true
      end in
    if well_formed then
      match exponent_part s2 with
      | Some e => Some (of_decimal neg m (e - Z.of_nat (default O nf)))
      | None => None
      end
    else None.

(** StrDecimalLiteral *)
Definition decimal (s : jsstring) : option number :=
  match s with
  | 43%N :: t => unsigned_decimal false t
  | 45%N :: t => unsigned_decimal true t
  | _ => unsigned_decimal false s
  end.

(** [Number(s)] on a string: StringToNumber. *)
Definition Number (s : jsstring) : number :=
  match trim s with
  | [] => zero
  | t =>
      match non_decimal t with
      | Some x => x
      | None => default NaN (decimal t)
      end
  end.

(** The decimal numeral with the digits [ds], the most significant
    first, and the natural number it stands for. *)
Definition decimal_numeral (ds : list N) : jsstring :=
  map (fun d => (48 + d)%N) ds.

Definition denoted (ds : list N) : N :=
  fold_left (fun a d => (a * 10 + d)%N) ds 0%N.

(** *** Values *)

Inductive value :=
| undefined
| null
| VBool (b : bool)
| VNum (x : number)
| VStr (s : jsstring).

(** [v ?? d] *)
Definition nullish (v d : value) : value :=
  match v with
  | undefined | null => d
  | _ => v
  end.

(** A nullable column of the table. *)
Definition of_nullable {A} (inj : A -> value) (o : option A) : value :=
  match o with
  | Some a => inj a
  | None => null
  end.

(** [o[k]] on an object: [undefined] when the property is missing. *)
Definition get (o : gmap string value) (k : string) : value :=
  match o !! k with
  | Some v => v
  | None => undefined
  end.

End JS.
Import JS.

(** ** zod: the validators [speciesSchema] is built from

    A validator maps an input value to the parsed value or to the first
    issue it raises; [zodResolver] reports the first issue of each field
    (react-hook-form's default [criteriaMode]). *)

Module Zod.

Inductive issue :=
| invalid_type (expected : string) (received : value)
| too_small (message : jsstring)
| invalid_url.

Definition validator := value -> issue + value.

(** [z.string()] *)
Definition z_string : validator := fun v =>
  match v with
  | VStr _ => inr v
  | _ => inl (invalid_type "string" v)
  end.

(** [.min(n, { message })] on a string validator *)
Definition min (n : nat) (message : jsstring) (p : validator) : validator :=
  fun v =>
    match p v with
    | inr (VStr s) =>
        if (JS.length s <? n)%nat then inl (too_small message) else inr (VStr s)
    | r => r
    end.

(** [.url()] on a string validator; [is_url s] says whether [s] parses as
    a URL ([new URL(s)] does not throw). *)
Definition url (is_url : jsstring -> bool) (p : validator) : validator :=
  fun v =>
    match p v with
    | inr (VStr s) => if is_url s then inr (VStr s) else inl invalid_url
    | r => r
    end.

(** [z.number()]: a number that is not NaN *)
Definition z_number : validator := fun v =>
  match v with
  | VNum x => if is_NaN x then inl (invalid_type "number" v) else inr v
  | _ => inl (invalid_type "number" v)
  end.

(** [z.boolean()] *)
Definition z_boolean : validator := fun v =>
  match v with
  | VBool _ => inr v
  | _ => inl (invalid_type "boolean" v)
  end.

(** [.nullable()] *)
Definition nullable (p : validator) : validator := fun v =>
  match v with
  | null => inr null
  | _ => p v
  end.

(** [.default(d)] *)
Definition default (d : value) (p : validator) : validator := fun v =>
  match v with
  | undefined => p d
  | _ => p v
  end.

(** [z.object(shape)]: every key of the shape is validated on the
    property of that name (a missing property reads [undefined]); keys
    outside the shape are stripped from the parsed object. *)
Definition shape := list (string * validator).

Fixpoint z_object (sh : shape) (input : gmap string value)
  : gmap string issue * gmap string value :=
  match sh with
  | [] => (∅, ∅)
  | (k, p) :: sh' =>
      let '(errs, data) := z_object sh' input in
      match p (get input k) with
      | inl i => (<[k := i]> errs, data)
      | inr v => (errs, <[k := v]> data)
      end
  end.

(** The message of an issue (zod's default English error map where the
    schema gives none). *)
Definition type_name (v : value) : string :=
  match v with
  | undefined => "undefined"
  | null => "null"
  | VBool _ => "boolean"
  | VNum x => if is_NaN x then "nan" else "number"
  | VStr _ => "string"
  end.

Definition message (i : issue) : jsstring :=
  match i with
  | invalid_type _ undefined => lit "Required"
  | invalid_type expected v =>
      lit ("Expected " ++ expected ++ ", received " ++ type_name v)
  | too_small m => m
  | invalid_url => lit "Invalid url"
  end.

End Zod.

(** ** react-hook-form: the part of [useForm] the component uses *)

Module HookForm.

Record form_state := {
  values : gmap string value;
  default_values : gmap string value;
  errors : gmap string Zod.issue;
}.

Definition resolver := gmap string value -> gmap string Zod.issue * gmap string value.

(** [useForm({ resolver, defaultValues, mode })] on mount *)
Definition useForm (defaults : gmap string value) : form_state :=
  {| values := defaults; default_values := defaults; errors := ∅ |}.

(** What an input hands to its change handler. *)
Record target := { type : jsstring; value_ : jsstring; checked : bool }.

(** The argument of [field.onChange]: a DOM event or a plain value. *)
Inductive change :=
| event (t : target)
| plain (v : value).

Definition getEventValue (c : change) : value :=
  match c with
  | event t =>
      if bool_decide (type t = lit "checkbox") then VBool (checked t)
      else VStr (value_ t)
  | plain v => v
  end.

(** [field.onChange] of the field [name] in mode ["onChange"]: the value
    is stored, the whole form is validated and the error of this field is
    set or cleared. *)
Definition field_onChange (r : resolver) (name : string) (c : change)
    (f : form_state) : form_state :=
  let vs := <[name := getEventValue c]> (values f) in
  {| values := vs;
     default_values := default_values f;
     errors := match fst (r vs) !! name with
               | Some i => <[name := i]> (errors f)
               | None => delete name (errors f)
               end |}.

(** [form.reset(data)] *)
Definition reset (data : gmap string value) (f : form_state) : form_state :=
  {| values := data; default_values := data; errors := ∅ |}.

End HookForm.
Import HookForm.

(** [ToBoolean] *)
Definition ToBoolean (v : value) : bool :=
  match v with
  | undefined | null => false
  | VBool b => b
  | VNum (S754_nan | S754_zero _) => false
  | VNum _ => true
  | VStr s => truthy s
  end.

(** ** The species row and the collaborators of the component *)

(** Modelled from the spec: the row type [Species] of the [species] table
    (declared in [@/lib/schema]): identifier, scientific name, optional
    common name, description and kingdom, optional numeric total
    population, optional image URL, endangered flag, author identifier. *)
Record Species := {
  id : value;
  scientific_name : jsstring;
  common_name : option jsstring;
  description : option jsstring;
  kingdom : option jsstring;
  total_population : option number;
  image : option jsstring;
  endangered : bool;
  author : jsstring;
}.

(** A notification handed to [toast]. *)
Module Toast.
Record t := {
  title : jsstring;
  description : option jsstring;
  variant : option string;
}.
End Toast.

(** The error a backend call resolves with. *)
Record PostgrestError := { message : jsstring }.

(** The two requests the component builds:
    [from(table).update(data).eq(column, v)] and
    [from(table).delete().eq(column, v)]. *)
Inductive request :=
| update (table : string) (data : gmap string value) (column : string) (v : value)
| delete_ (table : string) (column : string) (v : value).

(** What the component does to the outside, in order. *)
Inductive effect :=
| Request (r : request)
| Notify (t : Toast.t)
| Refresh.

(** ** Component state *)

Record world := {
  open : bool;             (* useState(false) *)
  isEditing : bool;        (* useState(false) *)
  isDeleting : bool;       (* useState(false) *)
  form : form_state;       (* useForm(...) *)
  effects : list effect;   (* requests, toasts and refreshes so far *)
  awaiting : list request; (* requests sent and not answered yet *)
}.

(** Handlers are state transformers over [world].  An [async] handler
    runs up to its [await]; what follows the [await] runs when the
    request is answered, in the world as it is by then. *)
Definition M (A : Type) : Type := world -> A * world.

#[global] Instance M_ret : MRet M := fun A a w => (a, w).
#[global] Instance M_bind : MBind M := fun A B k m w =>
  let '(a, w') := m w in k a w'.

Definition exec {A} (m : M A) (w : world) : world := snd (m w).

Definition setOpen (b : bool) : M unit := fun w =>
  (tt, {| open := b; isEditing := isEditing w; isDeleting := isDeleting w;
          form := form w; effects := effects w; awaiting := awaiting w |}).

Definition setIsEditing (b : bool) : M unit := fun w =>
  (tt, {| open := open w; isEditing := b; isDeleting := isDeleting w;
          form := form w; effects := effects w; awaiting := awaiting w |}).

Definition setIsDeleting (b : bool) : M unit := fun w =>
  (tt, {| open := open w; isEditing := isEditing w; isDeleting := b;
          form := form w; effects := effects w; awaiting := awaiting w |}).

Definition modify_form (g : form_state -> form_state) : M unit := fun w =>
  (tt, {| open := open w; isEditing := isEditing w; isDeleting := isDeleting w;
          form := g (form w); effects := effects w; awaiting := awaiting w |}).

Definition get_form : M form_state := fun w => (form w, w).

Definition emit (e : effect) : M unit := fun w =>
  (tt, {| open := open w; isEditing := isEditing w; isDeleting := isDeleting w;
          form := form w; effects := effects w ++ [e]; awaiting := awaiting w |}).

(** [await] on a request: it goes out, and the handler is suspended. *)
Definition await (r : request) : M unit := fun w =>
  (tt, {| open := open w; isEditing := isEditing w; isDeleting := isDeleting w;
          form := form w; effects := effects w ++ [Request r];
          awaiting := awaiting w ++ [r] |}).

(** The [i]-th request still waited on is answered. *)
Definition answered (i : nat) : M unit := fun w =>
  (tt, {| open := open w; isEditing := isEditing w; isDeleting := isDeleting w;
          form := form w; effects := effects w;
          awaiting := delete i (awaiting w) |}).

(** [toast({...})] *)
Definition toast (t : Toast.t) : M unit := emit (Notify t).

(** [router.refresh()] *)
Definition router_refresh : M unit := emit Refresh.

(** The requests among the effects. *)
Definition requests (es : list effect) : list request :=
  omap (fun e => match e with Request r => Some r | _ => None end) es.

(** The toasts among the effects. *)
Definition notifications (es : list effect) : list Toast.t :=
  omap (fun e => match e with Notify t => Some t | _ => None end) es.

(** What the update requests among the effects carry for the field [k],
    in the order they were sent. *)
Definition sent (k : string) (es : list effect) : list (option value) :=
  omap (fun e => match e with
                 | Request (update _ data _ _) => Some (data !! k)
                 | _ => None
                 end) es.

(** ** The element tree *)

Inductive prop :=
| attr (name : string) (v : value)
| on_click (h : M unit)
| on_open_change (h : bool -> M unit)
| on_change (h : target -> M unit)
| on_submit (h : M unit).

#[warnings="-register-all"]
Inductive node :=
| text (s : jsstring)
| numeral (x : number)
| nothing
| elem (tag : string) (props : list prop) (children : list node).

Definition className (c : string) : prop := attr "className" (VStr (lit c)).

(** A JSX child [{v}]: strings and numbers render, [null], [undefined]
    and booleans render nothing. *)
Definition child (v : value) : node :=
  match v with
  | VStr s => text s
  | VNum x => numeral x
  | _ => nothing
  end.

(** [{v && n}] *)
Definition and_then (v : value) (n : node) : node :=
  if ToBoolean v then n else child v.

(** *** Reading a tree *)

Fixpoint get_attr (n : string) (ps : list prop) : JS.value :=
  match ps with
  | attr k v :: ps' => if String.eqb k n then v else get_attr n ps'
  | _ :: ps' => get_attr n ps'
  | [] => undefined
  end.

Fixpoint click_handler (ps : list prop) : option (M unit) :=
  match ps with
  | on_click h :: _ => Some h
  | _ :: ps' => click_handler ps'
  | [] => None
  end.

Fixpoint open_change_handler (ps : list prop) : option (bool -> M unit) :=
  match ps with
  | on_open_change h :: _ => Some h
  | _ :: ps' => open_change_handler ps'
  | [] => None
  end.

Fixpoint change_handler (ps : list prop) : option (target -> M unit) :=
  match ps with
  | on_change h :: _ => Some h
  | _ :: ps' => change_handler ps'
  | [] => None
  end.

Fixpoint submit_handler (ps : list prop) : option (M unit) :=
  match ps with
  | on_submit h :: _ => Some h
  | _ :: ps' => submit_handler ps'
  | [] => None
  end.

(** The node at a path of child indices. *)
Fixpoint at_path (p : list nat) (n : node) : option node :=
  match p, n with
  | [], _ => Some n
  | i :: p', elem _ _ ks =>
      match ks !! i with
      | Some k => at_path p' k
      | None => None
      end
  | _ :: _, _ => None
  end.

(** The text directly inside an element. *)
Definition label (ks : list node) : jsstring :=
  flat_map (fun k => match k with text s => s | _ => [] end) ks.

(** The labels of the [Button] elements of a tree. *)
Fixpoint button_labels (n : node) : list jsstring :=
  match n with
  | elem tag _ ks =>
      (if String.eqb tag "Button" then [label ks] else [])
      ++ flat_map button_labels ks
  | _ => []
  end.

(** What is on screen for the user to act on. *)
Inductive control :=
| button (label : jsstring) (h : M unit)
| input (field : jsstring) (type : jsstring) (h : target -> M unit)
| form_element (h : M unit)
| dismiss (h : M unit).

(** Where an element sits: the enclosing dialog ([open] and
    [onOpenChange]), the handler a [DialogTrigger] or [DialogClose] hands
    to its child, the submit handler of the enclosing form, the name of
    the enclosing [FormField]. *)
Record context := {
  dialog : option (bool * (bool -> M unit));
  slot : option (M unit);
  enclosing_form : option (M unit);
  enclosing_field : jsstring;
}.

Definition top : context :=
  {| dialog := None; slot := None; enclosing_form := None; enclosing_field := [] |}.

Definition string_attr (n : string) (ps : list prop) (d : jsstring) : jsstring :=
  match get_attr n ps with
  | VStr s => s
  | _ => d
  end.

(** Modelled from the spec: the widgets of [@/components/ui] (dialog,
    button, form, input), which are not part of the given sources.  The
    content of a dialog is on screen while the dialog is open; its trigger
    opens it, and a close button or a dismissal closes it, by calling
    [onOpenChange]; a submit button submits the enclosing form; an input
    reports changes of the field it is rendered for. *)
Fixpoint controls (c : context) (n : node) : list control :=
  match n with
  | elem tag ps ks =>
      let inner :=
        {| dialog := dialog c; slot := None;
           enclosing_form := enclosing_form c;
           enclosing_field := enclosing_field c |} in
      if String.eqb tag "Dialog" then
        flat_map (controls
          {| dialog := match open_change_handler ps with
                       | Some h => Some (ToBoolean (get_attr "open" ps), h)
                       | None => None
                       end;
             slot := None;
             enclosing_form := enclosing_form c;
             enclosing_field := enclosing_field c |}) ks
      else if String.eqb tag "DialogTrigger" then
        flat_map (controls
          {| dialog := dialog c;
             slot := match dialog c with
                     | Some (o, h) => Some (h (negb o))
                     | None => None
                     end;
             enclosing_form := enclosing_form c;
             enclosing_field := enclosing_field c |}) ks
      else if String.eqb tag "DialogClose" then
        flat_map (controls
          {| dialog := dialog c;
             slot := match dialog c with
                     | Some (_, h) => Some (h false)
                     | None => None
                     end;
             enclosing_form := enclosing_form c;
             enclosing_field := enclosing_field c |}) ks
      else if String.eqb tag "DialogContent" then
        match dialog c with
        | Some (true, h) => dismiss (h false) :: flat_map (controls inner) ks
        | _ => []
        end
      else if String.eqb tag "form" then
        match submit_handler ps with
        | Some h =>
            form_element h ::
            flat_map (controls
              {| dialog := dialog c; slot := None;
                 enclosing_form := Some h;
                 enclosing_field := enclosing_field c |}) ks
        | None => flat_map (controls inner) ks
        end
      else if String.eqb tag "FormField" then
        flat_map (controls
          {| dialog := dialog c; slot := None;
             enclosing_form := enclosing_form c;
             enclosing_field := string_attr "name" ps [] |}) ks
      else if String.eqb tag "Button" then
        let h :=
          match click_handler ps, slot c with
          | Some h, _ => Some h
          | None, Some h => Some h
          | None, None =>
              if bool_decide (string_attr "type" ps [] = lit "submit")
              then enclosing_form c else None
          end in
        match h with
        | Some h => [button (label ks) h]
        | None => []
        end
      else if String.eqb tag "Input" then
        match change_handler ps with
        | Some h => [input (enclosing_field c) (string_attr "type" ps (lit "text")) h]
        | None => []
        end
      else if String.eqb tag "Textarea" then
        match change_handler ps with
        | Some h => [input (enclosing_field c) (lit "textarea") h]
        | None => []
        end
      else flat_map (controls inner) ks
  | _ => []
  end.

(** How many elements of a tree have the tag [t]. *)
Fixpoint count_tag (t : string) (n : node) : nat :=
  match n with
  | elem tag _ ks =>
      (if String.eqb tag t then 1 else 0) + list_sum (map (count_tag t) ks)
  | _ => 0
  end.

(** The texts on screen, with the same reading of the dialog widgets
    ([shown]: the enclosing dialog, if any, is open). *)
Fixpoint texts (shown : bool) (n : node) : list jsstring :=
  match n with
  | text s => [s]
  | elem tag ps ks =>
      if String.eqb tag "Dialog" then
        flat_map (texts (ToBoolean (get_attr "open" ps))) ks
      else if String.eqb tag "DialogContent" then
        if shown then flat_map (texts shown) ks else []
      else flat_map (texts shown) ks
  | _ => []
  end.

(** [form.handleSubmit(onValid)] of react-hook-form: the resolver runs on
    the current values, its errors replace the form's, and [onValid] is
    called with the parsed data only when there is no error. *)
Definition handleSubmit (r : resolver) (onValid : gmap string value -> M unit)
  : M unit :=
  f ← get_form;
  let '(errs, data) := r (values f) in
  modify_form (fun f => {| values := values f;
                           default_values := default_values f;
                           errors := errs |});;
  if decide (errs = ∅) then onValid data else mret tt.

(** What [FormField] hands to its [render] prop. *)
Record field := {
  name : string;
  value : JS.value;
  onChange : change -> M unit;
}.

(** ** Tactics *)

(** Two literals that differ. *)
Ltac lit_neq H := exfalso; clear -H; vm_compute in H; discriminate H.

Ltac distinct_controls :=
  repeat match goal with
  | H : _ \/ _ |- _ => destruct H
  | H : _ ∈ [] |- _ => by apply elem_of_nil in H
  | H : False |- _ => destruct H
  | H : lit ?a = lit ?a |- _ => clear H
  | H : lit _ = lit _ |- _ => lit_neq H
  | H : @eq control (button _ _) (button _ _) |- _ => injection H; clear H; intros
  | H : @eq control (input _ _ _) (input _ _ _) |- _ => injection H; clear H; intros
  | H : @eq control (form_element _) (form_element _) |- _ => injection H; clear H; intros
  | H : @eq control (dismiss _) (dismiss _) |- _ => injection H; clear H; intros
  | H : @eq control _ _ |- _ => discriminate H
  end.

Ltac split_hyps :=
  repeat match goal with
  | H : _ \/ _ |- _ => destruct H
  | H : _ /\ _ |- _ => destruct H
  end.

(** Membership in an explicit list, as a hypothesis and as a goal. *)
Ltac inv_elem H :=
  cbn [app] in H; repeat (rewrite elem_of_cons in H);
  rewrite ?elem_of_nil in H; distinct_controls.

Ltac elem_here :=
  cbn [app]; repeat first [apply list_elem_of_here | apply list_elem_of_further].

(** ** Sample data, for the examples *)

Module Sample.

(** A stand-in for URL parsing: the scheme test of the URL parser
    (without a base URL, an input that has no scheme does not parse). *)
Definition is_scheme_char (c : N) : bool :=
  ((65 <=? c) && (c <=? 90) || (97 <=? c) && (c <=? 122) ||
   (48 <=? c) && (c <=? 57) || (c =? 43) || (c =? 45) || (c =? 46))%N.

Fixpoint scheme_rest (s : jsstring) : bool :=
  match s with
  | c :: s' => (c =? 58)%N || is_scheme_char c && scheme_rest s'
  | [] => false
  end.

Definition has_scheme (s : jsstring) : bool :=
  match s with
  | c :: s' =>
      ((65 <=? c) && (c <=? 90) || (97 <=? c) && (c <=? 122))%N && scheme_rest s'
  | [] => false
  end.

(** The error of a backend that refuses. *)
Definition denied : PostgrestError := {| message := lit "permission denied" |}.

(** 149 letters, a space, and more: 165 code units. *)
Definition long_description : jsstring :=
  repeat 97%N 149 ++ lit " and more words".

Definition lion : Species :=
  {| id := VNum (Number (lit "7"));
     scientific_name := lit "Panthera leo";
     common_name := Some (lit "Lion");
     description := Some long_description;
     kingdom := Some (lit "Animalia");
     total_population := None;
     image := None;
     endangered := true;
     author := lit "user-1" |}.

Definition wren : Species :=
  {| id := VNum (Number (lit "8"));
     scientific_name := lit "Troglodytes troglodytes";
     common_name := None;
     description := Some (lit "  A very small bird. ");
     kingdom := Some (lit "Animalia");
     total_population := Some (Number (lit "1000000"));
     image := Some (lit "https://example.org/wren.png");
     endangered := false;
     author := lit "user-2" |}.

(** A record whose description is three spaces. *)
Definition moss : Species :=
  {| id := VNum (Number (lit "9"));
     scientific_name := lit "Bryum argenteum";
     common_name := None;
     description := Some (lit "   ");
     kingdom := Some (lit "Plantae");
     total_population := None;
     image := None;
     endangered := false;
     author := lit "user-1" |}.

(** What an input reports: a text input holding [s], a number input
    holding [s]. *)
Definition typed (s : jsstring) : target :=
  {| type := lit "text"; value_ := s; checked := false |}.

Definition typed_number (s : jsstring) : target :=
  {| type := lit "number"; value_ := s; checked := false |}.

End Sample.

(** ** The component *)

Section SpeciesCard.

(** [is_url s]: [new URL(s)] succeeds (the check behind [z.string().url()]). *)
Variable is_url : jsstring -> bool.

(** The props. *)
Variable species : Species.
Variable sessionId : jsstring.

Definition speciesSchema : Zod.shape := [
  ("scientific_name",
     Zod.min 1 (lit "Scientific name is required.") Zod.z_string);
  ("common_name", Zod.nullable Zod.z_string);
  ("description", Zod.nullable Zod.z_string);
  ("kingdom", Zod.nullable Zod.z_string);
  ("total_population", Zod.nullable Zod.z_number);
  ("image", Zod.nullable (Zod.url is_url Zod.z_string));
  ("endangered", Zod.default (VBool false) Zod.z_boolean)
].

(** [zodResolver(speciesSchema)] *)
Definition zodResolver : resolver := Zod.z_object speciesSchema.

Definition defaultValues : gmap string JS.value := list_to_map [
  ("scientific_name", VStr (scientific_name species));
  ("common_name", of_nullable VStr (common_name species));
  ("description", of_nullable VStr (description species));
  ("kingdom", of_nullable VStr (kingdom species));
  ("total_population", of_nullable VNum (total_population species));
  ("image", of_nullable VStr (image species));
  ("author", VStr (author species));
  ("endangered", VBool (endangered species))
].

(** The state on mount. *)
Definition mount : world :=
  {| open := false; isEditing := false; isDeleting := false;
     form := useForm defaultValues; effects := []; awaiting := [] |}.

(** [onSubmit], up to its [await]: the update of the record, keyed by
    its identifier, is sent. *)
Definition onSubmit (data : gmap string JS.value) : M unit :=
  await (update "species" data "id" (id species)).

(** [onSubmit], from its [await] on: the update has resolved with [error]. *)
Definition onSubmit_resumed (data : gmap string JS.value)
    (error : option PostgrestError) : M unit :=
  match error with
  | Some e =>
      toast {| Toast.title := lit "Something went wrong.";
               Toast.description := Some (message e);
               Toast.variant := Some "destructive" |}
  | None =>
      setIsEditing false;;
      modify_form (reset data);;
      router_refresh;;
      toast {| Toast.title := lit "Species updated successfully!";
               Toast.description := None;
               Toast.variant := None |}
  end.

(** [handleDelete], up to its [await]: the delete of the record is sent. *)
Definition handleDelete : M unit :=
  await (delete_ "species" "id" (id species)).

(** [handleDelete], from its [await] on. *)
Definition handleDelete_resumed (error : option PostgrestError) : M unit :=
  match error with
  | Some e =>
      toast {| Toast.title := lit "Something went wrong.";
               Toast.description := Some (message e);
               Toast.variant := Some "destructive" |}
  | None =>
      setIsDeleting false;;
      router_refresh;;
      toast {| Toast.title := lit "Species deleted successfully!";
               Toast.description := None;
               Toast.variant := None |}
  end.

(** The handler a request suspended, resumed with the answer. *)
Definition resume (r : request) (error : option PostgrestError) : M unit :=
  match r with
  | update _ data _ _ => onSubmit_resumed data error
  | delete_ _ _ _ => handleDelete_resumed error
  end.

(** *** The JSX the component returns *)

(** [FormField]: the field [n] of the form is handed to [render]. *)
Definition FormField (w : world) (n : string) (render : field -> node) : node :=
  elem "FormField" [attr "name" (VStr (lit n))]
    [render {| name := n;
               value := get (values (form w)) n;
               onChange := fun c =>
                 modify_form (field_onChange zodResolver n c) |}].

(** Modelled from the spec: [FormMessage] of [@/components/ui/form], which
    is not part of the given sources.  Validation errors are shown inline
    per field: the message of the field's error, when it has one. *)
Definition FormMessage (w : world) (n : string) : node :=
  match errors (form w) !! n with
  | Some i => elem "p" [] [text (Zod.message i)]
  | None => nothing
  end.

(** [{species.image && (<div className=...><Image .../></div>)}] *)
Definition image_box (cls : string) : node :=
  and_then (of_nullable VStr (image species))
    (elem "div" [className cls]
       [elem "Image" [attr "src" (of_nullable VStr (image species));
                      attr "alt" (VStr (scientific_name species));
                      attr "fill" (VBool true);
                      attr "style.objectFit" (VStr (lit "cover"))] []]).

(** [species.description ? species.description.slice(0, 150).trim() + "..." : ""] *)
Definition card_description : jsstring :=
  match description species with
  | Some d => if truthy d then trim (slice0 150 d) ++ lit "..." else lit ""
  | None => lit ""
  end.

(** The controls of the owner, inside the detail dialog. *)
Definition owner_controls : node :=
  and_then (VBool (eq_string (author species) sessionId))
    (elem "div" [className "mt-4 space-y-2"]
       [elem "Button" [className "w-full"; on_click (setIsEditing true)]
          [text (lit "Edit Species")];
        elem "Button" [className "w-full"; attr "variant" (VStr (lit "destructive"));
                       on_click (setIsDeleting true)]
          [text (lit "Delete Species")]]).

Definition detail_dialog (w : world) : node :=
  elem "Dialog" [attr "open" (VBool (open w)); on_open_change setOpen]
    [elem "DialogTrigger" [attr "asChild" (VBool true)]
       [elem "Button" [className "mt-3 w-full"] [text (lit "Learn More")]];
     elem "DialogContent" [className "max-h-screen overflow-y-auto sm:max-w-[600px]"]
       [elem "DialogHeader" []
          [elem "DialogTitle" [] [text (scientific_name species)];
           elem "DialogDescription" [] [child (of_nullable VStr (common_name species))]];
        elem "div" [className "mt-4"]
          [image_box "relative mb-4 h-40 w-full";
           elem "p" []
             [elem "strong" [] [text (lit "Total Population:")]; text (lit " ");
              child (of_nullable VNum (total_population species))];
           elem "p" []
             [elem "strong" [] [text (lit "Kingdom:")]; text (lit " ");
              child (of_nullable VStr (kingdom species))];
           elem "p" []
             [text (lit " "); elem "strong" [] [text (lit "Endangered:")]; text (lit " ");
              text (if endangered species then lit "Yes" else lit "No"); text (lit " ")];
           elem "p" [className "mt-2"] [child (of_nullable VStr (description species))]];
        owner_controls;
        elem "DialogClose" [attr "asChild" (VBool true)]
          [elem "Button" [className "mt-4 w-full"] [text (lit "Close")]]]].

(** A [FormItem] with its label, its control and its message. *)
Definition FormItem (w : world) (fld : field) (label : string) (control : node) : node :=
  elem "FormItem" []
    [elem "FormLabel" [] [text (lit label)];
     elem "FormControl" [] [control];
     FormMessage w (name fld)].

(** [<Input {...field} value={field.value ?? ""} onChange={field.onChange} />]
    (and the same props on [Textarea]): the props in effect. *)
Definition text_props (fld : field) : list prop :=
  [attr "name" (VStr (lit (name fld)));
   attr "value" (nullish (value fld) (VStr (lit "")));
   on_change (fun t => onChange fld (event t))].

Definition edit_dialog (w : world) : node :=
  and_then (VBool (isEditing w))
    (elem "Dialog" [attr "open" (VBool (isEditing w)); on_open_change setIsEditing]
       [elem "DialogContent" [className "max-h-screen overflow-y-auto sm:max-w-[600px]"]
          [elem "DialogHeader" []
             [elem "DialogTitle" [] [text (lit "Edit Species")];
              elem "DialogDescription" [] [text (lit "Edit the details of your species below.")]];
           elem "Form" []
             [elem "form" [on_submit (handleSubmit zodResolver onSubmit);
                           className "space-y-4"]
                [FormField w "scientific_name" (fun fld =>
                   FormItem w fld "Scientific Name" (elem "Input" (text_props fld) []));
                 FormField w "common_name" (fun fld =>
                   FormItem w fld "Common Name" (elem "Input" (text_props fld) []));
                 FormField w "kingdom" (fun fld =>
                   FormItem w fld "Kingdom" (elem "Input" (text_props fld) []));
                 FormField w "total_population" (fun fld =>
                   FormItem w fld "Total Population"
                     (elem "Input"
                        [attr "type" (VStr (lit "number"));
                         attr "name" (VStr (lit (name fld)));
                         attr "value" (nullish (value fld) (VStr (lit "")));
                         on_change (fun t =>
                           onChange fld (plain (VNum (Number (value_ t)))))] []));
                 FormField w "endangered" (fun fld =>
                   FormItem w fld "Endangered Status"
                     (elem "Input"
                        [attr "type" (VStr (lit "checkbox"));
                         attr "checked" (value fld);
                         on_change (fun t =>
                           onChange fld (plain (VBool (checked t))))] []));
                 FormField w "image" (fun fld =>
                   FormItem w fld "Image URL" (elem "Input" (text_props fld) []));
                 FormField w "description" (fun fld =>
                   FormItem w fld "Description" (elem "Textarea" (text_props fld) []));
                 elem "div" [className "flex space-x-2"]
                   [elem "Button" [attr "type" (VStr (lit "submit")); className "flex-1"]
                      [text (lit "Save Changes")];
                    elem "DialogClose" [attr "asChild" (VBool true)]
                      [elem "Button" [attr "type" (VStr (lit "button"));
                                      attr "variant" (VStr (lit "secondary"));
                                      className "flex-1"]
                         [text (lit "Cancel")]]]]]]]).

Definition delete_dialog (w : world) : node :=
  and_then (VBool (isDeleting w))
    (elem "Dialog" [attr "open" (VBool (isDeleting w)); on_open_change setIsDeleting]
       [elem "DialogContent" []
          [elem "DialogHeader" []
             [elem "DialogTitle" [] [text (lit "Confirm Deletion")];
              elem "DialogDescription" []
                [text (lit "Are you sure you want to delete ");
                 elem "strong" [] [text (scientific_name species)];
                 text (lit "? This action cannot be undone.")]];
           elem "div" [className "mt-4 flex space-x-2"]
             [elem "Button" [attr "variant" (VStr (lit "destructive")); className "flex-1";
                             on_click handleDelete]
                [text (lit "Confirm Delete")];
              elem "DialogClose" [attr "asChild" (VBool true)]
                [elem "Button" [attr "variant" (VStr (lit "secondary")); className "flex-1"]
                   [text (lit "Cancel")]]]]]).

Definition SpeciesCard (w : world) : node :=
  elem "div" [className "m-4 w-72 min-w-72 flex-none rounded border-2 p-3 shadow"]
    [image_box "relative h-40 w-full";
     elem "h3" [className "mt-3 text-2xl font-semibold"] [text (scientific_name species)];
     elem "h4" [className "text-lg font-light italic"]
       [child (of_nullable VStr (common_name species))];
     elem "p" [] [text card_description];
     detail_dialog w;
     edit_dialog w;
     delete_dialog w].

(** *** What the user can do *)

Definition screen (w : world) : list control :=
  controls top (SpeciesCard w).

(** One turn of the event loop: an interaction with a control on screen
    (an input reports a target of its own type), or the answer of the
    backend, an error or none, to a request still waited on. *)
Inductive step (w : world) : world -> Prop :=
| step_click l h :
    button l h ∈ screen w -> step w (exec h w)
| step_change f ty h t :
    input f ty h ∈ screen w -> type t = ty -> step w (exec (h t) w)
| step_submit h :
    form_element h ∈ screen w -> step w (exec h w)
| step_dismiss h :
    dismiss h ∈ screen w -> step w (exec h w)
| step_answer i r error :
    awaiting w !! i = Some r ->
    step w (exec (answered i;; resume r error) w).

Inductive steps (w : world) : world -> Prop :=
| steps_refl : steps w w
| steps_step w1 w2 : steps w w1 -> step w1 w2 -> steps w w2.

(** The handlers the inputs of the edit form end up with. *)
Definition change_text (n : string) : target -> M unit := fun t =>
  modify_form (field_onChange zodResolver n (event t)).

Definition change_number (n : string) : target -> M unit := fun t =>
  modify_form (field_onChange zodResolver n (plain (VNum (Number (value_ t))))).

Definition change_checked (n : string) : target -> M unit := fun t =>
  modify_form (field_onChange zodResolver n (plain (VBool (checked t)))).

(** The handler of the edit form. *)
Definition submit : M unit := handleSubmit zodResolver onSubmit.

(** The fields edited through a text input or a text area. *)
Definition text_fields : list string :=
  ["scientific_name"; "common_name"; "kingdom"; "image"; "description"]%string.

(** The handlers behind the controls, and the answers, as transitions. *)
Inductive interaction (w : world) : world -> Prop :=
| set_open b : interaction w (exec (setOpen b) w)
| set_editing b : interaction w (exec (setIsEditing b) w)
| set_deleting b : interaction w (exec (setIsDeleting b) w)
| edit_text n t :
    n ∈ text_fields -> type t = lit "text" \/ type t = lit "textarea" ->
    interaction w (exec (change_text n t) w)
| edit_number t : interaction w (exec (change_number "total_population" t) w)
| edit_checked t : interaction w (exec (change_checked "endangered" t) w)
| submit_form : isEditing w = true -> interaction w (exec submit w)
| confirm_delete : isDeleting w = true -> interaction w (exec handleDelete w)
| answer i r error :
    awaiting w !! i = Some r ->
    interaction w (exec (answered i;; resume r error) w).

(** The update requests of a list carry, for the field [k], a value of
    the class [C] that the validator [p] accepts as it is. *)
Definition carried (k : string) (p : Zod.validator) (C : JS.value -> Prop)
    (rs : list request) : Prop :=
  forall tbl data col v, update tbl data col v ∈ rs ->
    exists u, C u /\ p u = inr u /\ data !! k = Some u.

(** The field [k] holds a value of [C], and so will it after any answer
    still to come. *)
Definition holds (k : string) (p : Zod.validator) (C : JS.value -> Prop)
    (w : world) : Prop :=
  C (get (values (form w)) k) /\ carried k p C (awaiting w).

(** What the schema asks of the values of a form, field by field. *)
Definition null_or_string (v : JS.value) : Prop :=
  v = null \/ exists s, v = VStr s.

Definition passes_schema (vs : gmap string JS.value) : Prop :=
  (exists s, get vs "scientific_name" = VStr s /\ s <> []) /\
  null_or_string (get vs "common_name") /\
  null_or_string (get vs "description") /\
  null_or_string (get vs "kingdom") /\
  (get vs "total_population" = null \/
   exists x, get vs "total_population" = VNum x /\ is_NaN x = false) /\
  (get vs "image" = null \/
   exists u, get vs "image" = VStr u /\ is_url u = true) /\
  (get vs "endangered" = undefined \/ exists b, get vs "endangered" = VBool b).

(** The names of the fields of the schema. *)
Definition schema_keys : list string := map fst speciesSchema.

(** A request as the two handlers build them: the delete of the record,
    or the update of the record with data that came out of the resolver
    without an error. *)
Definition built_by_handlers (r : request) : Prop :=
  r = delete_ "species" "id" (id species) \/
  exists vs, (zodResolver vs).1 = ∅ /\
             r = update "species" (zodResolver vs).2 "id" (id species).

(** The world with the errors of the form replaced. *)
Definition with_errors (errs : gmap string Zod.issue) (w : world) : world :=
  exec (modify_form (fun f => {| values := values f;
                                 default_values := default_values f;
                                 errors := errs |})) w.

(** The requests and the toasts of the two handlers. *)
Definition update_request (data : gmap string JS.value) : request :=
  update "species" data "id" (id species).

Definition delete_request : request := delete_ "species" "id" (id species).

Definition error_toast (e : PostgrestError) : Toast.t :=
  {| Toast.title := lit "Something went wrong.";
     Toast.description := Some (message e);
     Toast.variant := Some "destructive" |}.

Definition success_toast (title : string) : Toast.t :=
  {| Toast.title := lit title; Toast.description := None; Toast.variant := None |}.

(** ** Properties *)

Ltac in_schema :=
  unfold speciesSchema;
  repeat first [apply list_elem_of_here | apply list_elem_of_further].


(** *** Trimming *)

Lemma trimStart_spec (s : jsstring) :
  exists ws, s = ws ++ trimStart s /\ blank ws /\
    forall c, head (trimStart s) = Some c -> is_white_space c = false.
Proof.
  induction s as [|c s IH]; simpl.
  - exists []. repeat split; [constructor | discriminate].
  - destruct (is_white_space c) eqn:E.
    + destruct IH as (ws & Hs & Hws & Hh).
      exists (c :: ws). repeat split; [simpl; congruence | by constructor | exact Hh].
    + exists []. repeat split; [constructor | simpl; congruence].
Qed.

Lemma last_rev_head (s : jsstring) : last (rev s) = head s.
Proof.
  destruct s as [|c s]; [reflexivity|]. simpl. by rewrite last_snoc.
Qed.

Lemma head_app_nonempty (a b : jsstring) c :
  head a = Some c -> head (a ++ b) = Some c.
Proof. destruct a; [discriminate | done]. Qed.

Lemma trim_spec (s : jsstring) :
  exists ws1 ws2, s = ws1 ++ trim s ++ ws2 /\ blank ws1 /\ blank ws2 /\ tight (trim s).
Proof.
  destruct (trimStart_spec s) as (ws1 & Hs & Hws1 & Hh1).
  destruct (trimStart_spec (rev (trimStart s))) as (ws & Hr & Hws & Hh2).
  unfold trim, trimEnd.
  set (x := trimStart (rev (trimStart s))) in *.
  assert (Hts : trimStart s = rev x ++ rev ws).
  { rewrite <- rev_app_distr, <- Hr. by rewrite rev_involutive. }
  exists ws1, (rev ws). repeat split.
  - by rewrite <- Hts.
  - exact Hws1.
  - unfold blank in *. rewrite Forall_forall in *.
    intros c Hc. apply Hws. apply list_elem_of_In. apply in_rev.
    by apply list_elem_of_In.
  - intros c Hc. apply Hh1. rewrite Hts. by apply head_app_nonempty.
  - intros c Hc. apply Hh2. rewrite <- Hc. symmetry. apply last_rev_head.
Qed.

Lemma trim_tight (s : jsstring) : tight s -> trim s = s.
Proof.
  intros [Hh Hl].
  assert (Hstart : forall u : jsstring,
            (forall c, head u = Some c -> is_white_space c = false) ->
            trimStart u = u).
  { intros [|c u] Hu; [reflexivity|]. simpl. by rewrite (Hu c eq_refl). }
  unfold trim, trimEnd. rewrite (Hstart s Hh), Hstart.
  - apply rev_involutive.
  - intros c Hc. apply Hl. rewrite <- Hc, <- (rev_involutive s) at 1.
    apply last_rev_head.
Qed.

Lemma trimStart_blank (s : jsstring) : blank s -> trimStart s = [].
Proof.
  induction 1 as [|c s Hc _ IH]; simpl; [done|]. by rewrite Hc.
Qed.

Lemma trim_blank (s : jsstring) : blank s -> trim s = [].
Proof. intros H. unfold trim, trimEnd. by rewrite (trimStart_blank s H). Qed.

(** *** Numerals *)

Lemma digit_cases (d : N) :
  (d < 10)%N ->
  d ∈ [0; 1; 2; 3; 4; 5; 6; 7; 8; 9]%N.
Proof.
  intros Hd.
  assert (H : (d = 0 \/ d = 1 \/ d = 2 \/ d = 3 \/ d = 4 \/ d = 5 \/ d = 6 \/
               d = 7 \/ d = 8 \/ d = 9)%N) by lia.
  repeat (destruct H as [-> | H]; [elem_here|]). subst. elem_here.
Qed.

Ltac by_digit H :=
  apply digit_cases in H; repeat (rewrite elem_of_cons in H);
  rewrite elem_of_nil in H;
  repeat (destruct H as [-> | H]); [..|destruct H].

Lemma digit_val_numeral (d : N) :
  (d < 10)%N -> digit_val 10 (48 + d) = Some d.
Proof. intros Hd. by_digit Hd; reflexivity. Qed.

Lemma digit_not_white_space (d : N) :
  (d < 10)%N -> is_white_space (48 + d) = false.
Proof. intros Hd. by_digit Hd; reflexivity. Qed.

Lemma digits_numeral (ds : list N) (acc : N) (cnt : nat) :
  Forall (fun d => (d < 10)%N) ds ->
  digits 10 acc cnt (decimal_numeral ds)
    = (fold_left (fun a d => (a * 10 + d)%N) ds acc,
       (cnt + List.length ds)%nat, []).
Proof.
  intros Hds. revert acc cnt.
  induction Hds as [|d ds Hd _ IH]; intros acc cnt; simpl.
  - by rewrite Nat.add_0_r.
  - rewrite (digit_val_numeral d Hd). fold (decimal_numeral ds). rewrite IH.
    by rewrite Nat.add_succ_r.
Qed.

Lemma numeral_tight (ds : list N) :
  Forall (fun d => (d < 10)%N) ds -> tight (decimal_numeral ds).
Proof.
  intros Hds. rewrite Forall_forall in Hds. unfold decimal_numeral.
  split; intros c Hc.
  - destruct ds as [|d ds]; [discriminate|]. injection Hc as <-.
    apply digit_not_white_space, Hds. apply list_elem_of_here.
  - rewrite fmap_last in Hc.
    destruct (last ds) as [d|] eqn:E; [|discriminate]. injection Hc as <-.
    apply digit_not_white_space, Hds. by apply last_Some_elem_of.
Qed.

Lemma non_decimal_numeral (ds : list N) :
  Forall (fun d => (d < 10)%N) ds -> non_decimal (decimal_numeral ds) = None.
Proof.
  intros Hds. destruct Hds as [|d0 ds Hd0 Hds]; [reflexivity|].
  by_digit Hd0; try reflexivity.
  destruct Hds as [|d1 ds Hd1 _]; [reflexivity|].
  by_digit Hd1; reflexivity.
Qed.

Lemma of_decimal_natural (v : N) :
  of_decimal false v 0 = binary_normalize prec emax (Z.of_N v) 0 false.
Proof.
  destruct v as [|p]; [reflexivity|]. unfold of_decimal.
  cbn [Z.leb Z.compare Z.pow Z.pow_pos Pos.iter cond_Zopp Z.of_N].
  by rewrite Z.mul_1_r.
Qed.

(** [Number] on a decimal numeral: the binary64 value nearest to the
    natural number the digits stand for. *)
Lemma Number_numeral (ds : list N) :
  ds <> [] ->
  Forall (fun d => (d < 10)%N) ds ->
  Number (decimal_numeral ds)
    = binary_normalize prec emax (Z.of_N (denoted ds)) 0 false.
Proof.
  intros Hne Hds.
  pose proof (trim_tight _ (numeral_tight ds Hds)) as Ht.
  pose proof (non_decimal_numeral ds Hds) as Hnd.
  assert (Hdec : decimal (decimal_numeral ds)
                 = unsigned_decimal false (decimal_numeral ds)).
  { destruct Hds as [|d0 ds Hd0 _]; [done|]. by_digit Hd0; reflexivity. }
  assert (Hinf : bool_decide (decimal_numeral ds = lit "Infinity") = false).
  { apply bool_decide_eq_false. intros H.
    destruct Hds as [|d0 ds Hd0 _]; [done|].
    by_digit Hd0; vm_compute in H; discriminate H. }
  pose proof (digits_numeral ds 0 0 Hds) as Hdig.
  assert (Hlen : exists n, List.length ds = S n)
    by (destruct ds; [done | eauto]).
  destruct Hlen as [n Hlen]. rewrite Hlen in Hdig. cbn [Nat.add] in Hdig.
  assert (Hs : decimal_numeral ds <> []) by (by destruct ds).
  rewrite <- of_decimal_natural. unfold Number. rewrite Ht.
  revert Hnd Hdec Hinf Hdig Hs. generalize (decimal_numeral ds).
  intros [|c s] Hnd Hdec Hinf Hdig Hs; [done|].
  rewrite Hnd, Hdec. unfold unsigned_decimal. rewrite Hinf, Hdig.
  reflexivity.
Qed.

(** *** The card and the detail view *)

Lemma slice0_split (n : nat) (s : jsstring) :
  (n <= JS.length s)%nat ->
  exists rest, s = slice0 n s ++ rest /\ JS.length (slice0 n s) = n.
Proof.
  intros H. exists (skipn n s). split.
  - unfold slice0. by rewrite firstn_skipn.
  - unfold slice0, JS.length in *. rewrite length_firstn. lia.
Qed.

Lemma card_description_shown (w : world) :
  at_path [3%nat] (SpeciesCard w) = Some (elem "p" [] [text card_description]).
Proof. reflexivity. Qed.

(** C1: a description longer than 150 code units is shown on the card as
    its first 150 code units, trimmed, followed by ["..."]. *)
Theorem card_truncates_long_description (w : world) (d : jsstring) :
  description species = Some d ->
  (150 < JS.length d)%nat ->
  exists first150 rest ws1 t ws2,
    d = first150 ++ rest /\ JS.length first150 = 150%nat /\
    first150 = ws1 ++ t ++ ws2 /\ blank ws1 /\ blank ws2 /\ tight t /\
    t = trim (slice0 150 d) /\
    at_path [3%nat] (SpeciesCard w) = Some (elem "p" [] [text (t ++ lit "...")]).
Proof.
  intros Hd Hlen.
  destruct (slice0_split 150 d) as (rest & Hsplit & Hl); [lia|].
  destruct (trim_spec (slice0 150 d)) as (ws1 & ws2 & Ht & Hb1 & Hb2 & Htight).
  exists (slice0 150 d), rest, ws1, (trim (slice0 150 d)), ws2.
  repeat split; try done; try apply Htight.
  rewrite card_description_shown. unfold card_description. rewrite Hd.
  destruct d as [|c d']; [simpl in Hlen; lia | reflexivity].
Qed.

(** C7: a description of at most 150 code units is shown in full, as it
    is, in the detail view. *)
Theorem detail_shows_full_description (w : world) (d : jsstring) :
  description species = Some d ->
  (JS.length d <= 150)%nat ->
  at_path [4; 1; 1; 4]%nat (SpeciesCard w)
    = Some (elem "p" [className "mt-2"] [text d]) /\
  (open w = true -> d ∈ texts true (detail_dialog w)).
Proof.
  intros Hd _. split.
  - cbn. unfold detail_dialog. cbn. by rewrite Hd.
  - intros Ho. unfold detail_dialog. cbn. rewrite Ho, Hd. cbn.
    set_solver.
Qed.

(** C8: whenever the description is a non-empty string the card shows
    the first 150 code units of it (all of it when it has no more),
    without the white space at either end, followed by ["..."], also
    when nothing was cut off; a null or empty description gives the empty
    string, without the ellipsis. *)
Theorem card_description_ellipsis (w : world) :
  (forall d, description species = Some d -> d <> [] ->
     exists first150 rest ws1 t ws2,
       d = first150 ++ rest /\
       JS.length first150 = Nat.min 150 (JS.length d) /\
       first150 = ws1 ++ t ++ ws2 /\ blank ws1 /\ blank ws2 /\ tight t /\
       t = trim (slice0 150 d) /\
       ((JS.length d <= 150)%nat -> rest = [] /\ d = ws1 ++ t ++ ws2) /\
       card_description = t ++ lit "..." /\
       at_path [3%nat] (SpeciesCard w)
         = Some (elem "p" [] [text (t ++ lit "...")])) /\
  (description species = None \/ description species = Some [] ->
     card_description = [] /\
     at_path [3%nat] (SpeciesCard w) = Some (elem "p" [] [text []])).
Proof.
  split.
  - intros d Hd Hne.
    destruct (trim_spec (slice0 150 d)) as (ws1 & ws2 & Ht & Hb1 & Hb2 & Htight).
    assert (Hcard : card_description = trim (slice0 150 d) ++ lit "...").
    { unfold card_description. rewrite Hd. by destruct d. }
    exists (slice0 150 d), (skipn 150 d), ws1, (trim (slice0 150 d)), ws2.
    split; [unfold slice0; by rewrite firstn_skipn|].
    split; [unfold slice0, JS.length; apply length_firstn|].
    split; [exact Ht|]. split; [exact Hb1|]. split; [exact Hb2|].
    split; [exact Htight|]. split; [reflexivity|]. split.
    + intros Hlen. unfold JS.length in Hlen. split.
      * by apply skipn_all2.
      * unfold slice0 in *. rewrite firstn_all2 in Ht by exact Hlen.
        by rewrite firstn_all2 by exact Hlen.
    + split; [exact Hcard|]. by rewrite card_description_shown, Hcard.
  - intros Hnone.
    assert (Hcard : card_description = []).
    { unfold card_description. by destruct Hnone as [-> | ->]. }
    split; [exact Hcard|]. by rewrite card_description_shown, Hcard.
Qed.

(** *** What is on screen *)

Lemma controls_image_box (c : context) (cls : string) :
  controls c (image_box cls) = [].
Proof.
  unfold image_box. destruct (image species) as [[|u i]|]; reflexivity.
Qed.

Lemma controls_detail (w : world) :
  controls top (detail_dialog w) =
    button (lit "Learn More") (setOpen (negb (open w))) ::
    (if open w then
       dismiss (setOpen false) ::
       (if eq_string (author species) sessionId
        then [button (lit "Edit Species") (setIsEditing true);
              button (lit "Delete Species") (setIsDeleting true)]
        else []) ++
       [button (lit "Close") (setOpen false)]
     else []).
Proof.
  unfold detail_dialog, owner_controls.
  destruct (open w) eqn:Ho, (eq_string (author species) sessionId) eqn:He;
    cbn; rewrite ?Ho; cbn; rewrite ?controls_image_box; try reflexivity.
  all: destruct (common_name species), (total_population species),
         (kingdom species), (description species); reflexivity.
Qed.

Lemma controls_edit (w : world) :
  controls top (edit_dialog w) =
    if isEditing w then
      [dismiss (setIsEditing false);
       form_element submit;
       input (lit "scientific_name") (lit "text") (change_text "scientific_name");
       input (lit "common_name") (lit "text") (change_text "common_name");
       input (lit "kingdom") (lit "text") (change_text "kingdom");
       input (lit "total_population") (lit "number") (change_number "total_population");
       input (lit "endangered") (lit "checkbox") (change_checked "endangered");
       input (lit "image") (lit "text") (change_text "image");
       input (lit "description") (lit "textarea") (change_text "description");
       button (lit "Save Changes") submit;
       button (lit "Cancel") (setIsEditing false)]
    else [].
Proof.
  assert (Hm : forall c n, controls c (FormMessage w n) = []).
  { intros c n. unfold FormMessage. by destruct (errors (form w) !! n). }
  unfold edit_dialog. destruct (isEditing w) eqn:He; [|reflexivity].
  unfold FormField, FormItem.
  cbn -[FormMessage lit]. by rewrite !Hm.
Qed.

Lemma controls_delete (w : world) :
  controls top (delete_dialog w) =
    if isDeleting w then
      [dismiss (setIsDeleting false);
       button (lit "Confirm Delete") handleDelete;
       button (lit "Cancel") (setIsDeleting false)]
    else [].
Proof.
  unfold delete_dialog. destruct (isDeleting w) eqn:He; reflexivity.
Qed.

Lemma screen_eq (w : world) :
  screen w = controls top (detail_dialog w) ++ controls top (edit_dialog w)
             ++ controls top (delete_dialog w).
Proof.
  unfold screen, SpeciesCard.
  change (controls top (elem ?t ?ps ?ks)) with (flat_map (controls top) ks).
  cbn [flat_map]. rewrite controls_image_box.
  rewrite (app_nil_r (controls top (delete_dialog w))).
  destruct (common_name species); reflexivity.
Qed.

(** *** The resolver *)

Lemma z_object_lookup (sh : Zod.shape) (input : gmap string JS.value)
    (k : string) (p : Zod.validator) :
  NoDup (map fst sh) -> (k, p) ∈ sh ->
  (Zod.z_object sh input).1 !! k
    = match p (get input k) with inl i => Some i | inr _ => None end /\
  (Zod.z_object sh input).2 !! k
    = match p (get input k) with inl _ => None | inr v => Some v end.
Proof.
  induction sh as [|[k' p'] sh IH]; intros Hnd Hin.
  - by apply elem_of_nil in Hin.
  - simpl in Hnd. apply NoDup_cons in Hnd as [Hk' Hnd].
    simpl. destruct (Zod.z_object sh input) as [errs data] eqn:E.
    apply elem_of_cons in Hin as [Heq | Hin].
    + injection Heq as <- <-.
      assert (errs !! k = None /\ data !! k = None) as [He Hd].
      { clear -Hk' E. revert errs data E.
        induction sh as [|[k2 p2] sh IH]; intros errs data E; simpl in E.
        - injection E as <- <-. split; apply lookup_empty.
        - destruct (Zod.z_object sh input) as [e2 d2].
          apply not_elem_of_cons in Hk' as [Hne Hk'].
          destruct (IH Hk' e2 d2 eq_refl) as [He Hd].
          destruct (p2 (get input k2)); injection E as <- <-;
            by rewrite ?lookup_insert_ne. }
      destruct (p (get input k)); simpl; by rewrite ?lookup_insert_eq.
    + assert (k' <> k).
      { intros ->. apply Hk'. apply list_elem_of_fmap. by exists (k, p). }
      destruct (IH Hnd Hin) as [He Hd]. simpl in He, Hd.
      destruct (p' (get input k')); simpl; by rewrite ?lookup_insert_ne.
Qed.

Lemma speciesSchema_keys : NoDup (map fst speciesSchema).
Proof. apply (bool_decide_unpack _). vm_compute. exact I. Qed.

(** The error and the parsed value of a field are those of its validator. *)
Lemma zodResolver_field (vs : gmap string JS.value) (k : string) (p : Zod.validator) :
  (k, p) ∈ speciesSchema ->
  (zodResolver vs).1 !! k
    = match p (get vs k) with inl i => Some i | inr _ => None end /\
  (zodResolver vs).2 !! k
    = match p (get vs k) with inl _ => None | inr v => Some v end.
Proof. apply z_object_lookup, speciesSchema_keys. Qed.

(** *** The handlers *)

Lemma exec_bind {A B} (m : M A) (k : A -> M B) (w : world) :
  exec (m ≫= k) w = exec (k (m w).1) (m w).2.
Proof. unfold exec, mbind, M_bind. by destruct (m w). Qed.

Lemma exec_submit (w : world) :
  exec submit w =
    let r := zodResolver (values (form w)) in
    if decide (r.1 = ∅) then exec (onSubmit r.2) (with_errors r.1 w)
    else with_errors r.1 w.
Proof.
  unfold submit, handleSubmit. rewrite exec_bind. cbn [get_form fst snd].
  destruct (zodResolver (values (form w))) as [errs data].
  rewrite exec_bind. cbn [fst snd]. fold (with_errors errs w).
  by destruct (decide (errs = ∅)).
Qed.

Lemma exec_onSubmit (data : gmap string JS.value) (w : world) :
  exec (onSubmit data) w =
    {| open := open w; isEditing := isEditing w; isDeleting := isDeleting w;
       form := form w;
       effects := effects w ++ [Request (update_request data)];
       awaiting := awaiting w ++ [update_request data] |}.
Proof. reflexivity. Qed.

Lemma exec_onSubmit_resumed (data : gmap string JS.value)
    (error : option PostgrestError) (w : world) :
  exec (onSubmit_resumed data error) w =
    match error with
    | Some e =>
        {| open := open w; isEditing := isEditing w; isDeleting := isDeleting w;
           form := form w;
           effects := effects w ++ [Notify (error_toast e)];
           awaiting := awaiting w |}
    | None =>
        {| open := open w; isEditing := false; isDeleting := isDeleting w;
           form := reset data (form w);
           effects := effects w ++ [Refresh;
                                    Notify (success_toast "Species updated successfully!")];
           awaiting := awaiting w |}
    end.
Proof.
  destruct error; unfold onSubmit_resumed, exec, toast, router_refresh, emit,
    setIsEditing, modify_form, mbind, M_bind; cbn; by rewrite <- ?app_assoc.
Qed.

Lemma exec_handleDelete (w : world) :
  exec handleDelete w =
    {| open := open w; isEditing := isEditing w; isDeleting := isDeleting w;
       form := form w;
       effects := effects w ++ [Request delete_request];
       awaiting := awaiting w ++ [delete_request] |}.
Proof. reflexivity. Qed.

Lemma exec_handleDelete_resumed (error : option PostgrestError) (w : world) :
  exec (handleDelete_resumed error) w =
    match error with
    | Some e =>
        {| open := open w; isEditing := isEditing w; isDeleting := isDeleting w;
           form := form w;
           effects := effects w ++ [Notify (error_toast e)];
           awaiting := awaiting w |}
    | None =>
        {| open := open w; isEditing := isEditing w; isDeleting := false;
           form := form w;
           effects := effects w ++ [Refresh;
                                    Notify (success_toast "Species deleted successfully!")];
           awaiting := awaiting w |}
    end.
Proof.
  destruct error; unfold handleDelete_resumed, exec, toast, router_refresh, emit,
    setIsDeleting, mbind, M_bind; cbn; by rewrite <- ?app_assoc.
Qed.

(** An answer takes its request off the list and resumes the handler. *)
Lemma exec_answer (i : nat) (r : request) (error : option PostgrestError)
    (w : world) :
  exec (answered i;; resume r error) w = exec (resume r error) (exec (answered i) w).
Proof. by rewrite exec_bind. Qed.

(** *** The controls of the owner *)

Lemma button_labels_card (w : world) :
  button_labels (SpeciesCard w) =
    [lit "Learn More"] ++
    (if eq_string (author species) sessionId
     then [lit "Edit Species"; lit "Delete Species"] else []) ++
    [lit "Close"] ++
    (if isEditing w then [lit "Save Changes"; lit "Cancel"] else []) ++
    (if isDeleting w then [lit "Confirm Delete"; lit "Cancel"] else []).
Proof.
  assert (Hc : forall v, button_labels (child v) = []) by (by intros []).
  assert (Hi : forall cls, button_labels (image_box cls) = []).
  { intros cls. unfold image_box. by destruct (image species) as [[|u i]|]. }
  assert (Hm : forall n, button_labels (FormMessage w n) = []).
  { intros n. unfold FormMessage. by destruct (errors (form w) !! n). }
  assert (He : button_labels (edit_dialog w) =
               if isEditing w then [lit "Save Changes"; lit "Cancel"] else []).
  { unfold edit_dialog, FormField, FormItem.
    destruct (isEditing w); [|reflexivity].
    cbn -[FormMessage]. by rewrite !Hm. }
  assert (Hd : button_labels (delete_dialog w) =
               if isDeleting w then [lit "Confirm Delete"; lit "Cancel"] else []).
  { unfold delete_dialog. by destruct (isDeleting w). }
  unfold SpeciesCard.
  cbn -[image_box edit_dialog delete_dialog child]. rewrite He, Hd, !Hi, !Hc.
  unfold owner_controls.
  destruct (eq_string (author species) sessionId), (isEditing w), (isDeleting w);
    reflexivity.
Qed.

(** The buttons on screen, dialog by dialog. *)
Lemma buttons_detail (w : world) (l : jsstring) (h : M unit) :
  button l h ∈ controls top (detail_dialog w) <->
    (l = lit "Learn More" /\ h = setOpen (negb (open w))) \/
    (open w = true /\
       ((author species = sessionId /\
           ((l = lit "Edit Species" /\ h = setIsEditing true) \/
            (l = lit "Delete Species" /\ h = setIsDeleting true))) \/
        (l = lit "Close" /\ h = setOpen false))).
Proof.
  rewrite controls_detail. unfold eq_string.
  destruct (open w), (bool_decide_reflect (author species = sessionId));
    (split; [intros H; inv_elem H; subst; tauto|]);
    intros H; split_hyps; subst; try done; elem_here.
Qed.

Lemma buttons_edit (w : world) (l : jsstring) (h : M unit) :
  button l h ∈ controls top (edit_dialog w) <->
    isEditing w = true /\
    ((l = lit "Save Changes" /\ h = submit) \/
     (l = lit "Cancel" /\ h = setIsEditing false)).
Proof.
  rewrite controls_edit.
  destruct (isEditing w);
    (split; [intros H; inv_elem H; subst; tauto|]);
    intros [? H]; try done; destruct H as [[-> ->] | [-> ->]]; elem_here.
Qed.

Lemma buttons_delete (w : world) (l : jsstring) (h : M unit) :
  button l h ∈ controls top (delete_dialog w) <->
    isDeleting w = true /\
    ((l = lit "Confirm Delete" /\ h = handleDelete) \/
     (l = lit "Cancel" /\ h = setIsDeleting false)).
Proof.
  rewrite controls_delete.
  destruct (isDeleting w);
    (split; [intros H; inv_elem H; subst; tauto|]);
    intros [? H]; try done; destruct H as [[-> ->] | [-> ->]]; elem_here.
Qed.

Lemma in_labels (l : jsstring) (ls : list jsstring) :
  l ∈ ls <-> bool_decide (l ∈ ls) = true.
Proof. split; [apply bool_decide_eq_true_2 | apply bool_decide_eq_true_1]. Qed.

(** C2: the Edit and Delete buttons are part of what the component
    renders exactly when the author of the record is the session
    identifier; they are on screen exactly when, in addition, the detail
    dialog is open, and they open the edit and the delete dialog. *)
Theorem owner_controls_iff_author (w : world) :
  (lit "Edit Species" ∈ button_labels (SpeciesCard w)
     <-> author species = sessionId) /\
  (lit "Delete Species" ∈ button_labels (SpeciesCard w)
     <-> author species = sessionId) /\
  (forall h, button (lit "Edit Species") h ∈ screen w
     <-> open w = true /\ author species = sessionId /\ h = setIsEditing true) /\
  (forall h, button (lit "Delete Species") h ∈ screen w
     <-> open w = true /\ author species = sessionId /\ h = setIsDeleting true).
Proof.
  rewrite button_labels_card. unfold eq_string.
  split; [|split].
  1, 2: rewrite in_labels;
    destruct (bool_decide_reflect (author species = sessionId)),
      (isEditing w), (isDeleting w); vm_compute; intuition congruence.
  split; intros h; rewrite screen_eq, !elem_of_app, buttons_detail,
    buttons_edit, buttons_delete.
  all: split;
    [ intros H; split_hyps;
      repeat match goal with
      | H : lit ?a = lit ?a |- _ => clear H
      | H : lit _ = lit _ |- _ => lit_neq H
      end; done
    | intros (? & ? & ?); left; right; split; [done|]; left; split; [done|];
      auto ].
Qed.

(** *** Deleting *)

Lemma delete_dialog_on_screen (w : world) (c : control) :
  c ∈ controls top (delete_dialog w) -> c ∈ screen w.
Proof. rewrite screen_eq, !elem_of_app. auto. Qed.

Lemma edit_dialog_on_screen (w : world) (c : control) :
  c ∈ controls top (edit_dialog w) -> c ∈ screen w.
Proof. rewrite screen_eq, !elem_of_app. auto. Qed.

(** C5: in the open delete dialog, Confirm runs [handleDelete], which
    sends exactly one delete request keyed by the identifier of the record
    and waits; Cancel closes the dialog and sends nothing.  When the answer
    comes, success closes the dialog, asks for a refresh and shows a
    success toast; an error leaves the dialog as it is and only shows the
    error toast. *)
Theorem delete_confirm_and_cancel (w : world) (error : option PostgrestError) :
  isDeleting w = true ->
  (button (lit "Confirm Delete") handleDelete ∈ screen w /\
   button (lit "Cancel") (setIsDeleting false) ∈ screen w /\
   forall l h, button l h ∈ controls top (delete_dialog w) <->
     (l = lit "Confirm Delete" /\ h = handleDelete) \/
     (l = lit "Cancel" /\ h = setIsDeleting false)) /\
  (let r := delete_ "species" "id" (id species) in
   let w' := exec handleDelete w in
   effects w' = effects w ++ [Request r] /\
   awaiting w' = awaiting w ++ [r] /\
   open w' = open w /\ isEditing w' = isEditing w /\ isDeleting w' = true /\
   form w' = form w) /\
  (let w' := exec (setIsDeleting false) w in
   isDeleting w' = false /\ effects w' = effects w /\ awaiting w' = awaiting w /\
   open w' = open w /\ isEditing w' = isEditing w /\ form w' = form w) /\
  (forall w1 : world,
   let w' := exec (resume (delete_ "species" "id" (id species)) error) w1 in
   open w' = open w1 /\ isEditing w' = isEditing w1 /\ form w' = form w1 /\
   awaiting w' = awaiting w1 /\
   match error with
   | None =>
       isDeleting w' = false /\
       effects w' = effects w1 ++
         [Refresh;
          Notify {| Toast.title := lit "Species deleted successfully!";
                    Toast.description := None; Toast.variant := None |}]
   | Some e =>
       isDeleting w' = isDeleting w1 /\
       effects w' = effects w1 ++
         [Notify {| Toast.title := lit "Something went wrong.";
                    Toast.description := Some (message e);
                    Toast.variant := Some "destructive" |}]
   end).
Proof.
  intros Hd. split; [|split; [|split]].
  - split; [|split].
    + apply delete_dialog_on_screen, buttons_delete. auto.
    + apply delete_dialog_on_screen, buttons_delete. auto.
    + intros l h. rewrite buttons_delete. tauto.
  - cbn zeta. rewrite exec_handleDelete. by repeat split.
  - by repeat split.
  - intros w1. cbn zeta. cbn [resume]. rewrite exec_handleDelete_resumed.
    destruct error; by repeat split.
Qed.

(** *** Submitting the edit form *)

Lemma submit_on_screen (w : world) :
  isEditing w = true ->
  form_element submit ∈ screen w /\
  button (lit "Save Changes") submit ∈ screen w /\
  (forall h, form_element h ∈ controls top (edit_dialog w) -> h = submit) /\
  (forall h, button (lit "Save Changes") h ∈ controls top (edit_dialog w) -> h = submit).
Proof.
  intros He. split; [|split; [|split]].
  - apply edit_dialog_on_screen. rewrite controls_edit, He. elem_here.
  - apply edit_dialog_on_screen. rewrite buttons_edit. auto.
  - intros h. rewrite controls_edit, He. intros H. by inv_elem H.
  - intros h. rewrite buttons_edit. intros [_ [[_ ->] | [H _]]]; [done | lit_neq H].
Qed.

(** A submission with a field in error calls nothing and records the errors. *)
Lemma submit_blocked (w : world) (k : string) (i : Zod.issue) :
  (zodResolver (values (form w))).1 !! k = Some i ->
  exec submit w = with_errors (zodResolver (values (form w))).1 w.
Proof.
  intros Hk. rewrite exec_submit. cbn zeta.
  destruct (decide ((zodResolver (values (form w))).1 = ∅)) as [He|]; [|done].
  rewrite He, lookup_empty in Hk. discriminate.
Qed.

(** A submission without errors calls [onSubmit] with the parsed data. *)
Lemma submit_valid (w : world) :
  (zodResolver (values (form w))).1 = ∅ ->
  exec submit w = exec (onSubmit (zodResolver (values (form w))).2) (with_errors ∅ w).
Proof.
  intros He. rewrite exec_submit. cbn zeta. rewrite He.
  by destruct (decide (∅ = ∅)).
Qed.

(** A submission: nothing is sent, or one update request is, for the
    data that passed validation, and the handler waits for its answer. *)
Lemma submit_effects (w : world) :
  (effects (exec submit w) = effects w /\ awaiting (exec submit w) = awaiting w) \/
  ((zodResolver (values (form w))).1 = ∅ /\
   effects (exec submit w)
     = effects w ++ [Request (update_request (zodResolver (values (form w))).2)] /\
   awaiting (exec submit w)
     = awaiting w ++ [update_request (zodResolver (values (form w))).2]).
Proof.
  destruct (decide ((zodResolver (values (form w))).1 = ∅)) as [He|Hne].
  - right. split; [done|]. by rewrite submit_valid, exec_onSubmit.
  - left. rewrite exec_submit. cbn zeta.
    by destruct (decide ((zodResolver (values (form w))).1 = ∅)).
Qed.

(** Data that passed validation holds, for each field, what the field's
    validator made of the form value. *)
Lemma valid_field (vs : gmap string JS.value) (k : string) (p : Zod.validator) :
  (k, p) ∈ speciesSchema ->
  (zodResolver vs).1 = ∅ ->
  exists v, p (get vs k) = inr v /\ (zodResolver vs).2 !! k = Some v.
Proof.
  intros Hin He. destruct (zodResolver_field vs k p Hin) as [H1 H2].
  rewrite He, lookup_empty in H1.
  destruct (p (get vs k)) as [i|v]; [discriminate | eauto].
Qed.

Lemma scientific_name_valid (v v' : JS.value) :
  Zod.min 1 (lit "Scientific name is required.") Zod.z_string v = inr v' ->
  exists s, v = VStr s /\ v' = VStr s /\ s <> [].
Proof.
  unfold Zod.min, Zod.z_string. destruct v as [| |b|x|s]; try discriminate.
  destruct s as [|c s]; [discriminate|]. cbn. intros [= <-]. by exists (c :: s).
Qed.

Lemma image_valid (v v' : JS.value) :
  Zod.nullable (Zod.url is_url Zod.z_string) v = inr v' ->
  v' = v /\ (v = null \/ exists s, v = VStr s /\ is_url s = true).
Proof.
  unfold Zod.nullable, Zod.url, Zod.z_string.
  destruct v as [| |b|x|s]; try discriminate.
  - intros [= <-]. auto.
  - destruct (is_url s) eqn:E; [|discriminate]. intros [= <-]. eauto.
Qed.

Lemma total_population_valid (v v' : JS.value) :
  Zod.nullable Zod.z_number v = inr v' ->
  v' = v /\ (v = null \/ exists x, v = VNum x /\ is_NaN x = false).
Proof.
  unfold Zod.nullable, Zod.z_number.
  destruct v as [| |b|x|s]; try discriminate.
  - intros [= <-]. auto.
  - destruct (is_NaN x) eqn:E; [discriminate|]. intros [= <-]. eauto.
Qed.

(** Where the message of a field of the edit form is. *)
Lemma message_at_path (w : world) :
  isEditing w = true ->
  at_path [5; 0; 1; 0; 0; 0; 2]%nat (SpeciesCard w)
    = Some (FormMessage w "scientific_name") /\
  at_path [5; 0; 1; 0; 5; 0; 2]%nat (SpeciesCard w)
    = Some (FormMessage w "image").
Proof.
  intros He. unfold SpeciesCard, edit_dialog. rewrite He. split; reflexivity.
Qed.

Lemma message_on_screen (w : world) (i : Zod.issue) :
  isEditing w = true ->
  errors (form w) !! "scientific_name" = Some i ->
  Zod.message i ∈ texts true (SpeciesCard w).
Proof.
  intros He Hi.
  change (texts true (SpeciesCard w)) with
    (flat_map (texts true)
       [image_box "relative h-40 w-full";
        elem "h3" [className "mt-3 text-2xl font-semibold"] [text (scientific_name species)];
        elem "h4" [className "text-lg font-light italic"]
          [child (of_nullable VStr (common_name species))];
        elem "p" [] [text card_description];
        detail_dialog w; edit_dialog w; delete_dialog w]).
  cbn [flat_map]. rewrite !elem_of_app. do 5 right. left.
  unfold edit_dialog, FormField, FormItem. rewrite He.
  cbn -[FormMessage lit]. unfold FormMessage at 1. rewrite Hi.
  cbn -[FormMessage lit]. set_solver.
Qed.

(** C3: a submission of the edit form whose scientific name is the empty
    string issues no request and shows the message of the schema under
    the field; and whatever update request a submission issues carries a
    scientific name that is a non-empty string. *)
Theorem empty_scientific_name_blocks_update (w : world) :
  isEditing w = true ->
  (form_element submit ∈ screen w /\
   button (lit "Save Changes") submit ∈ screen w) /\
  (get (values (form w)) "scientific_name" = VStr [] ->
   let w' := exec submit w in
   effects w' = effects w /\
   awaiting w' = awaiting w /\
   values (form w') = values (form w) /\
   isEditing w' = true /\
   at_path [5; 0; 1; 0; 0; 0; 2]%nat (SpeciesCard w')
     = Some (elem "p" [] [text (lit "Scientific name is required.")]) /\
   lit "Scientific name is required." ∈ texts true (SpeciesCard w')) /\
  (forall tbl data col v,
     Request (update tbl data col v)
       ∈ drop (List.length (effects w)) (effects (exec submit w)) ->
     exists s, data !! "scientific_name" = Some (VStr s) /\ s <> []).
Proof.
  intros He. split; [|split].
  - split; by apply submit_on_screen.
  - intros Hv. cbn zeta.
    destruct (zodResolver_field (values (form w)) "scientific_name"
                (Zod.min 1 (lit "Scientific name is required.") Zod.z_string))
      as [Herr _]; [in_schema|].
    rewrite Hv in Herr. cbn in Herr.
    rewrite (submit_blocked w _ _ Herr).
    set (errs := (zodResolver (values (form w))).1) in *.
    assert (He' : isEditing (with_errors errs w) = true) by exact He.
    assert (Hm : errors (form (with_errors errs w)) !! "scientific_name"
                 = Some (Zod.too_small (lit "Scientific name is required.")))
      by exact Herr.
    repeat split; try done.
    + destruct (message_at_path _ He') as [-> _].
      unfold FormMessage. by rewrite Hm.
    + apply (message_on_screen _ _ He' Hm).
  - intros tbl data col v Hin.
    destruct (submit_effects w) as [[Hsame _] | (Hok & Heff & _)].
    + rewrite Hsame, drop_all in Hin. by apply elem_of_nil in Hin.
    + rewrite Heff, drop_app_length in Hin.
      apply list_elem_of_singleton in Hin.
      injection Hin as -> -> -> ->.
      destruct (valid_field (values (form w)) "scientific_name" _
                  ltac:(in_schema) Hok) as (v' & Hp & Hd).
      apply scientific_name_valid in Hp as (s & _ & -> & Hne). eauto.
Qed.

(** An image value that is neither null nor a URL string is an error of
    the image field, and blocks the submission. *)
Lemma image_not_url_blocked (w : world) (v : JS.value) :
  get (values (form w)) "image" = v ->
  v <> null ->
  (forall s, v = VStr s -> is_url s = false) ->
  (exists i, (zodResolver (values (form w))).1 !! "image" = Some i /\
             (forall s, v = VStr s -> i = Zod.invalid_url)) /\
  exec submit w = with_errors (zodResolver (values (form w))).1 w.
Proof.
  intros Hv Hnull Hurl.
  destruct (zodResolver_field (values (form w)) "image"
              (Zod.nullable (Zod.url is_url Zod.z_string)))
    as [Herr _]; [in_schema|].
  rewrite Hv in Herr.
  assert (exists i, (zodResolver (values (form w))).1 !! "image" = Some i /\
                    (forall s, v = VStr s -> i = Zod.invalid_url))
    as (i & Hi & Hinv).
  { rewrite Herr. unfold Zod.nullable, Zod.url, Zod.z_string.
    destruct v as [| |b|x|s]; try done; try (eexists; split; [reflexivity | done]).
    rewrite (Hurl s eq_refl). eauto. }
  split; [eauto | exact (submit_blocked w "image" i Hi)].
Qed.

(** C6: a submission of the edit form whose image value is neither null
    nor a string that parses as a URL issues no request. *)
Theorem invalid_image_blocks_update (w : world) (v : JS.value) :
  isEditing w = true ->
  get (values (form w)) "image" = v ->
  v <> null ->
  (forall s, v = VStr s -> is_url s = false) ->
  form_element submit ∈ screen w /\
  let w' := exec submit w in
  effects w' = effects w /\
  awaiting w' = awaiting w /\
  is_Some (errors (form w') !! "image") /\
  values (form w') = values (form w) /\
  isEditing w' = true.
Proof.
  intros He Hv Hnull Hurl. split; [by apply submit_on_screen|]. cbn zeta.
  destruct (image_not_url_blocked w v Hv Hnull Hurl) as [(i & Hi & _) ->].
  repeat split; done.
Qed.

(** *** Editing a field *)

Lemma get_insert (m : gmap string JS.value) (n k : string) (v : JS.value) :
  get (<[n := v]> m) k = if decide (n = k) then v else get m k.
Proof.
  unfold get. rewrite lookup_insert. by destruct (decide (n = k)).
Qed.

(** A change stores its value in the field and touches nothing but the form. *)
Lemma exec_field_onChange (n : string) (c : change) (w : world) :
  let w' := exec (modify_form (field_onChange zodResolver n c)) w in
  values (form w') = <[n := getEventValue c]> (values (form w)) /\
  default_values (form w') = default_values (form w) /\
  errors (form w') !! n = (zodResolver (values (form w'))).1 !! n /\
  effects w' = effects w /\
  open w' = open w /\ isEditing w' = isEditing w /\ isDeleting w' = isDeleting w.
Proof.
  unfold exec, modify_form. cbn [snd form effects open isEditing isDeleting].
  unfold field_onChange. cbn [values default_values errors].
  repeat split.
  destruct ((zodResolver _).1 !! n) eqn:E;
    by rewrite ?lookup_insert_eq, ?lookup_delete_eq.
Qed.

(** The inputs on screen are those of the open edit dialog. *)
Lemma inputs_on_screen (w : world) (f ty : jsstring) (h : target -> M unit) :
  input f ty h ∈ screen w ->
  isEditing w = true /\
  ((exists n, n ∈ text_fields /\ f = lit n /\ h = change_text n /\
              ty = lit (if String.eqb n "description" then "textarea" else "text")) \/
   (f = lit "total_population" /\ ty = lit "number"
      /\ h = change_number "total_population") \/
   (f = lit "endangered" /\ ty = lit "checkbox"
      /\ h = change_checked "endangered")).
Proof.
  rewrite screen_eq, !elem_of_app. intros [H | [H | H]].
  - rewrite controls_detail in H.
    destruct (open w), (eq_string (author species) sessionId); inv_elem H.
  - rewrite controls_edit in H. destruct (isEditing w); [|inv_elem H].
    split; [done|]. inv_elem H; subst.
    1-3, 6-7: left; eexists; split; [|split; [reflexivity|split; reflexivity]];
      unfold text_fields; elem_here.
    + right. by left.
    + right. by right.
  - rewrite controls_delete in H. destruct (isDeleting w); inv_elem H.
Qed.

(** The other controls on screen. *)
Lemma forms_on_screen (w : world) (h : M unit) :
  form_element h ∈ screen w -> isEditing w = true /\ h = submit.
Proof.
  rewrite screen_eq, !elem_of_app. intros [H | [H | H]].
  - rewrite controls_detail in H.
    destruct (open w), (eq_string (author species) sessionId); inv_elem H.
  - rewrite controls_edit in H. destruct (isEditing w); inv_elem H. by subst.
  - rewrite controls_delete in H. destruct (isDeleting w); inv_elem H.
Qed.

Lemma dismissals_on_screen (w : world) (h : M unit) :
  dismiss h ∈ screen w ->
  h = setOpen false \/ h = setIsEditing false \/ h = setIsDeleting false.
Proof.
  rewrite screen_eq, !elem_of_app. intros [H | [H | H]].
  - rewrite controls_detail in H.
    destruct (open w), (eq_string (author species) sessionId); inv_elem H; auto.
  - rewrite controls_edit in H. destruct (isEditing w); inv_elem H; auto.
  - rewrite controls_delete in H. destruct (isDeleting w); inv_elem H; auto.
Qed.

(** Every interaction with the screen is one of the transitions. *)
Lemma step_cases (w w' : world) : step w w' -> interaction w w'.
Proof.
  intros [l h Hin | f ty h t Hin Hty | h Hin | h Hin | i r error Hi].
  - rewrite screen_eq, !elem_of_app, buttons_detail, buttons_edit, buttons_delete in Hin.
    split_hyps; subst; by constructor.
  - apply inputs_on_screen in Hin as [_ [(n & ? & ? & ? & ?) | Hin]].
    + subst. constructor; [done|]. destruct (String.eqb n "description"); auto.
    + split_hyps; subst; constructor.
  - apply forms_on_screen in Hin as [? ->]. by constructor.
  - apply dismissals_on_screen in Hin as [-> | [-> | ->]]; constructor.
  - by constructor.
Qed.

Lemma text_event_value (t : target) :
  type t = lit "text" \/ type t = lit "textarea" ->
  getEventValue (event t) = VStr (value_ t).
Proof. unfold getEventValue. by intros [-> | ->]. Qed.

(** *** What a field holds, along any sequence of steps

    For a field [k] validated by [p] and a class [C] of values that every
    edit of [k] stays in and that [p] hands on unchanged: when the field
    holds a value of [C] and so does the data of every update still
    waited on, this stays so forever, and every update request sent from
    then on carries for [k] a value of [C] accepted by [p]. *)
Section FieldInvariant.

Variable k : string.
Variable p : Zod.validator.
Variable C : JS.value -> Prop.
Hypothesis Hk : (k, p) ∈ speciesSchema.
Hypothesis Hp : forall v v', C v -> p v = inr v' -> v' = v.
Hypothesis Htext : k ∈ text_fields -> forall s, C (VStr s).
Hypothesis Hnum : k = "total_population"%string -> forall x, C (VNum x).
Hypothesis Hbool : k = "endangered"%string -> forall b, C (VBool b).

Lemma carried_nil : carried k p C [].
Proof. intros ???? H. by apply elem_of_nil in H. Qed.

Lemma carried_app (rs1 rs2 : list request) :
  carried k p C rs1 -> carried k p C rs2 -> carried k p C (rs1 ++ rs2).
Proof. intros H1 H2 tbl data col v [H | H]%elem_of_app; eauto. Qed.

Lemma interaction_field (w w' : world) :
  interaction w w' ->
  holds k p C w ->
  holds k p C w' /\
  exists es, effects w' = effects w ++ es /\ carried k p C (requests es).
Proof.
  intros Hi [HC Ha].
  assert (Hnone : forall w1 : world,
            C (get (values (form w1)) k) -> awaiting w1 = awaiting w ->
            effects w1 = effects w ->
            holds k p C w1 /\
            exists es, effects w1 = effects w ++ es /\ carried k p C (requests es)).
  { intros w1 H1 H2 H3. split; [split; [done | by rewrite H2]|].
    exists []. rewrite app_nil_r. split; [done | apply carried_nil]. }
  destruct Hi as [b | b | b | n t Hn Ht | t | t | He | Hd | i r error Hi].
  - by apply Hnone.
  - by apply Hnone.
  - by apply Hnone.
  - apply Hnone; [|reflexivity..].
    unfold change_text.
    destruct (exec_field_onChange n (event t) w) as (-> & _).
    rewrite get_insert, (text_event_value t Ht).
    destruct (decide (n = k)) as [<-|]; [by apply Htext | done].
  - apply Hnone; [|reflexivity..].
    unfold change_number.
    destruct (exec_field_onChange "total_population"
                (plain (VNum (Number (value_ t)))) w) as (-> & _).
    rewrite get_insert.
    destruct (decide ("total_population"%string = k)) as [<-|]; [by apply Hnum | done].
  - apply Hnone; [|reflexivity..].
    unfold change_checked.
    destruct (exec_field_onChange "endangered" (plain (VBool (checked t))) w)
      as (-> & _).
    rewrite get_insert.
    destruct (decide ("endangered"%string = k)) as [<-|]; [by apply Hbool | done].
  - rewrite exec_submit. cbn zeta.
    destruct (decide ((zodResolver (values (form w))).1 = ∅)) as [Hok|];
      [|by apply Hnone].
    destruct (valid_field (values (form w)) k p Hk Hok) as (v' & Hv' & Hdata).
    assert (v' = get (values (form w)) k) as -> by (by eapply Hp).
    rewrite exec_onSubmit.
    set (data := (zodResolver (values (form w))).2) in *.
    assert (Hsent : carried k p C [update_request data]).
    { intros tbl d col v Hin. apply list_elem_of_singleton in Hin.
      injection Hin as -> -> -> ->. eauto. }
    split; [split|].
    + exact HC.
    + cbn [awaiting]. by apply carried_app.
    + eexists. split; [reflexivity | exact Hsent].
  - rewrite exec_handleDelete. split; [split|].
    + exact HC.
    + cbn [awaiting]. apply carried_app; [done|].
      intros tbl d col v Hin. apply list_elem_of_singleton in Hin. discriminate.
    + eexists. split; [reflexivity|].
      intros tbl d col v Hin. apply list_elem_of_singleton in Hin. discriminate.
  - rewrite exec_answer.
    assert (Ha' : carried k p C (awaiting (exec (answered i) w))).
    { intros tbl d col v Hin. apply (Ha tbl d col v).
      by apply list_elem_of_delete_inv in Hin. }
    destruct r as [tbl data col v | tbl col v]; cbn [resume].
    + destruct (Ha tbl data col v) as (u & HCu & _ & Hu);
        [by eapply list_elem_of_lookup_2|].
      rewrite exec_onSubmit_resumed. destruct error as [e|].
      * split; [by split|]. eexists. split; [reflexivity | apply carried_nil].
      * split; [split; [|exact Ha']|].
        -- cbn [form values reset]. unfold get. by rewrite Hu.
        -- eexists. split; [reflexivity | apply carried_nil].
    + rewrite exec_handleDelete_resumed. destruct error as [e|];
        (split; [by split|]); eexists; (split; [reflexivity | apply carried_nil]).
Qed.

Lemma steps_field (w w' : world) :
  steps w w' ->
  holds k p C w ->
  holds k p C w' /\
  forall tbl data col v,
    Request (update tbl data col v) ∈ drop (List.length (effects w)) (effects w') ->
    exists u, C u /\ p u = inr u /\ data !! k = Some u.
Proof.
  intros Hs Hw.
  assert (Hreq : forall es r, Request r ∈ es -> r ∈ requests es).
  { intros es r Hin. unfold requests. apply list_elem_of_omap.
    by exists (Request r). }
  enough (holds k p C w' /\
          exists es, effects w' = effects w ++ es /\ carried k p C (requests es))
    as (H1 & es & -> & H2).
  { split; [done|]. rewrite drop_app_length. intros tbl data col v Hin.
    by apply (H2 tbl data col v), Hreq. }
  induction Hs as [|w1 w2 Hs (IH1 & es & IHe & IH2) Hstep].
  - split; [done|]. exists []. rewrite app_nil_r. split; [done | apply carried_nil].
  - destruct (interaction_field w1 w2 (step_cases _ _ Hstep) IH1)
      as (H1 & es' & He' & H2).
    split; [done|]. exists (es ++ es').
    rewrite He', IHe, <- app_assoc. split; [done|].
    unfold requests. rewrite omap_app. by apply carried_app.
Qed.

End FieldInvariant.

(** *** The outcome of an update *)

(** C4: a submission that passes validation sends the parsed data as one
    update request and waits, the dialog still open.  When the answer
    comes, success closes the edit dialog, resets the form to the data
    sent, asks for a refresh and shows a success toast; an error leaves
    the dialog and the form as they are and only shows a toast carrying
    the message of the backend. *)
Theorem update_outcome (w : world) (data : gmap string JS.value)
    (error : option PostgrestError) :
  isEditing w = true ->
  zodResolver (values (form w)) = (∅, data) ->
  form_element submit ∈ screen w /\
  (let r := update "species" data "id" (id species) in
   let w' := exec submit w in
   effects w' = effects w ++ [Request r] /\
   awaiting w' = awaiting w ++ [r] /\
   open w' = open w /\ isEditing w' = true /\ isDeleting w' = isDeleting w /\
   values (form w') = values (form w) /\
   default_values (form w') = default_values (form w)) /\
  (forall w1 : world,
   let w' := exec (resume (update "species" data "id" (id species)) error) w1 in
   open w' = open w1 /\ isDeleting w' = isDeleting w1 /\
   awaiting w' = awaiting w1 /\
   match error with
   | None =>
       isEditing w' = false /\
       form w' = {| values := data; default_values := data; errors := ∅ |} /\
       effects w' = effects w1 ++
         [Refresh;
          Notify {| Toast.title := lit "Species updated successfully!";
                    Toast.description := None; Toast.variant := None |}]
   | Some e =>
       isEditing w' = isEditing w1 /\
       form w' = form w1 /\
       effects w' = effects w1 ++
         [Notify {| Toast.title := lit "Something went wrong.";
                    Toast.description := Some (message e);
                    Toast.variant := Some "destructive" |}]
   end).
Proof.
  intros He Hr. split; [by apply submit_on_screen|]. split.
  - cbn zeta. rewrite submit_valid by (by rewrite Hr).
    rewrite Hr. cbn [fst snd]. rewrite exec_onSubmit. by repeat split.
  - intros w1. cbn zeta. cbn [resume]. rewrite exec_onSubmit_resumed.
    destruct error; by repeat split.
Qed.

(** *** Total population and image URL *)

Lemma not_text_field (k : string) :
  k = "total_population"%string \/ k = "endangered"%string -> k ∉ text_fields.
Proof.
  unfold text_fields. intros [-> | ->] H; inv_elem H; discriminate.
Qed.

Lemma lit_text_field (n k : string) :
  n ∈ text_fields -> lit k = lit n ->
  k = "total_population"%string \/ k = "image"%string -> k = n.
Proof.
  unfold text_fields. intros Hn Heq Hk. revert Heq.
  destruct Hk as [-> | ->]; inv_elem Hn; subst; intros Heq;
    first [reflexivity | lit_neq Heq].
Qed.

(** C9, as amended: an edit of the Total Population input stores a
    number, the conversion of the text by [Number]: zero for an empty or
    blank text, for a decimal numeral the binary64 value nearest to the
    natural number its digits stand for; so no edit stores null.  With no
    request in flight at the edit, the field holds a number from then on,
    whatever the user does and the backend answers, so that every update
    request sent after the edit carries a number, never null, as total
    population.  In any case, from the mount on, an update request
    carries null as total population only when the record itself had
    none. *)
Theorem population_edit_stores_number (w : world) (t : target) :
  isEditing w = true ->
  (input (lit "total_population") (lit "number") (change_number "total_population")
     ∈ screen w /\
   forall ty h, input (lit "total_population") ty h ∈ screen w ->
     ty = lit "number" /\ h = change_number "total_population") /\
  let w' := exec (change_number "total_population" t) w in
  values (form w')
    = <["total_population" := VNum (Number (value_ t))]> (values (form w)) /\
  (value_ t = [] ->
     get (values (form w')) "total_population" = VNum (S754_zero false)) /\
  (exists x, get (values (form w')) "total_population" = VNum x /\
     (blank (value_ t) -> x = S754_zero false) /\
     (forall ds, ds <> [] -> Forall (fun d => (d < 10)%N) ds ->
        value_ t = decimal_numeral ds ->
        x = binary_normalize 53 1024 (Z.of_N (denoted ds)) 0 false)) /\
  (awaiting w = [] ->
   forall w'', steps w' w'' ->
     (exists x, get (values (form w'')) "total_population" = VNum x) /\
     forall tbl data col v,
       Request (update tbl data col v)
         ∈ drop (List.length (effects w')) (effects w'') ->
       exists x, data !! "total_population" = Some (VNum x)) /\
  (forall w0, steps mount w0 ->
     forall tbl data col v,
       Request (update tbl data col v) ∈ effects w0 ->
       data !! "total_population" = Some null ->
       total_population species = None).
Proof.
  intros He. split; [split|].
  - apply edit_dialog_on_screen. rewrite controls_edit, He. elem_here.
  - intros ty h Hin. apply inputs_on_screen in Hin as [_ Hin].
    destruct Hin as [(n & Hn & Hf & -> & _) | [(_ & -> & ->) | (Hf & _)]].
    + apply (lit_text_field n "total_population") in Hf; [|done|by left].
      subst n. by apply (not_text_field "total_population") in Hn; [|left].
    + done.
    + lit_neq Hf.
  - cbn zeta. unfold change_number at 1 2 3.
    destruct (exec_field_onChange "total_population"
                (plain (VNum (Number (value_ t)))) w) as (Hv & _).
    split; [exact Hv|]. split; [|split; [|split]].
    + intros Ht. rewrite Hv, get_insert, Ht.
      by destruct (decide ("total_population"%string = "total_population"%string)).
    + exists (Number (value_ t)). split; [|split].
      * rewrite Hv, get_insert.
        by destruct (decide ("total_population"%string = "total_population"%string)).
      * intros Hb. unfold Number. by rewrite (trim_blank _ Hb).
      * intros ds Hne Hds ->. by apply Number_numeral.
    + intros Hidle w'' Hs.
      destruct (steps_field "total_population" (Zod.nullable Zod.z_number)
                  (fun v => exists x, v = VNum x)) with (w := exec (modify_form
                    (field_onChange zodResolver "total_population"
                       (plain (VNum (Number (value_ t)))))) w) (w' := w'')
        as [[H1 _] H2].
      * in_schema.
      * intros v v' _ Hp. by apply total_population_valid in Hp as [-> _].
      * intros Hk. by apply (not_text_field "total_population") in Hk; [|left].
      * eauto.
      * discriminate.
      * exact Hs.
      * split.
        -- rewrite Hv, get_insert.
           destruct (decide ("total_population"%string = "total_population"%string));
             [eauto | done].
        -- change (carried "total_population" (Zod.nullable Zod.z_number)
                     (fun v => exists x, v = VNum x) (awaiting w)).
           rewrite Hidle. apply carried_nil.
      * split; [exact H1|].
        intros tbl data col v Hin.
        destruct (H2 tbl data col v Hin) as (u & [x ->] & _ & Hd). eauto.
    + intros w0 Hs tbl data col v Hin Hnull.
      destruct (steps_field "total_population" (Zod.nullable Zod.z_number)
                  (fun v => v = of_nullable VNum (total_population species)
                            \/ exists x, v = VNum x)) with (w := mount) (w' := w0)
        as [_ H2].
      * in_schema.
      * intros v0 v' _ Hp. by apply total_population_valid in Hp as [-> _].
      * intros Hk. by apply (not_text_field "total_population") in Hk; [|left].
      * eauto.
      * discriminate.
      * exact Hs.
      * split; [by left | apply carried_nil].
      * destruct (H2 tbl data col v Hin) as (u & HC & _ & Hd).
        rewrite Hd in Hnull. injection Hnull as ->.
        destruct HC as [HC | [x HC]]; [|discriminate].
        by destruct (total_population species).
Qed.


(** ** Further properties of the component *)

(** *** The text of the card *)

Lemma length_trimStart (s : jsstring) :
  (List.length (trimStart s) <= List.length s)%nat.
Proof.
  induction s as [|c s IH]; simpl; [lia|].
  destruct (is_white_space c); simpl; lia.
Qed.

Lemma length_trim (s : jsstring) : (JS.length (trim s) <= JS.length s)%nat.
Proof.
  unfold trim, trimEnd, JS.length. rewrite length_rev.
  etrans; [apply length_trimStart|]. rewrite length_rev. apply length_trimStart.
Qed.

(** X1: the text of the card is never longer than 153 code units, and
    never longer than the description and its ellipsis. *)
Theorem card_description_bounded :
  (JS.length card_description <= 153)%nat /\
  (forall d, description species = Some d ->
     (JS.length card_description <= JS.length d + 3)%nat).
Proof.
  assert (H : forall d, (JS.length (trim (slice0 150 d) ++ lit "...")
                         <= Nat.min 150 (JS.length d) + 3)%nat).
  { intros d. unfold JS.length at 1. rewrite length_app.
    pose proof (length_trim (slice0 150 d)) as Ht.
    unfold slice0, JS.length in *. rewrite length_firstn in Ht.
    change (List.length (lit "...")) with 3%nat. lia. }
  unfold card_description. split.
  - destruct (description species) as [[|c d]|]; cbn [truthy];
      [vm_compute; lia | | vm_compute; lia].
    pose proof (H (c :: d)). lia.
  - intros d ->. destruct d as [|c d]; cbn [truthy]; [vm_compute; lia|].
    pose proof (H (c :: d)). lia.
Qed.

(** X2: when the first 150 code units of a non-empty description are all
    white space, the card shows the ellipsis alone. *)
Theorem card_description_of_blanks (d : jsstring) :
  description species = Some d ->
  d <> [] ->
  blank (slice0 150 d) ->
  card_description = lit "...".
Proof.
  intros Hd Hne Hb. unfold card_description. rewrite Hd.
  destruct d as [|c d]; [done|]. cbn [truthy]. by rewrite (trim_blank _ Hb).
Qed.

(** *** The image *)

Lemma count_tag_image_box (cls : string) :
  count_tag "Image" (image_box cls)
    = match image species with Some (_ :: _) => 1%nat | _ => 0%nat end.
Proof. unfold image_box. by destruct (image species) as [[|c u]|]. Qed.

Lemma count_tag_card (w : world) :
  count_tag "Image" (SpeciesCard w)
    = (count_tag "Image" (image_box "relative h-40 w-full")
       + count_tag "Image" (image_box "relative mb-4 h-40 w-full"))%nat.
Proof.
  assert (Hc : forall v, count_tag "Image" (child v) = 0%nat) by (by intros []).
  assert (Hm : forall n, count_tag "Image" (FormMessage w n) = 0%nat).
  { intros n. unfold FormMessage. by destruct (errors (form w) !! n). }
  assert (He : count_tag "Image" (edit_dialog w) = 0%nat).
  { unfold edit_dialog, FormField, FormItem.
    destruct (isEditing w); [|reflexivity].
    cbn -[FormMessage]. by rewrite !Hm. }
  assert (Hd : count_tag "Image" (delete_dialog w) = 0%nat).
  { unfold delete_dialog. by destruct (isDeleting w). }
  assert (Ho : count_tag "Image" owner_controls = 0%nat).
  { unfold owner_controls. by destruct (eq_string (author species) sessionId). }
  unfold SpeciesCard, detail_dialog.
  cbn -[image_box edit_dialog delete_dialog child owner_controls].
  rewrite He, Hd, Ho, !Hc. lia.
Qed.

(** X3: the component renders the image, once on the card and once in
    the detail view, exactly when the record has a non-empty image; a
    record with no image, or with the empty string, gets none. *)
Theorem image_rendered_iff_present (w : world) :
  count_tag "Image" (SpeciesCard w)
    = match image species with Some (_ :: _) => 2%nat | _ => 0%nat end /\
  (forall u, image species = Some u -> u <> [] ->
     at_path [0; 0]%nat (SpeciesCard w)
       = Some (elem "Image" [attr "src" (VStr u);
                             attr "alt" (VStr (scientific_name species));
                             attr "fill" (VBool true);
                             attr "style.objectFit" (VStr (lit "cover"))] []) /\
     at_path [4; 1; 1; 0; 0]%nat (SpeciesCard w)
       = at_path [0; 0]%nat (SpeciesCard w)).
Proof.
  split.
  - rewrite count_tag_card, !count_tag_image_box.
    by destruct (image species) as [[|c u]|].
  - intros u Hu Hne. unfold SpeciesCard, detail_dialog, image_box. rewrite Hu.
    destruct u as [|c u]; [done|]. by split.
Qed.

(** *** What goes out, along any sequence of steps *)

(** What a step adds to the log and to the requests waited on. *)
Lemma interaction_log (w w' : world) :
  interaction w w' ->
  (effects w' = effects w /\ awaiting w' = awaiting w) \/
  (exists r, built_by_handlers r /\
             effects w' = effects w ++ [Request r] /\
             awaiting w' = awaiting w ++ [r]) \/
  (exists i r t, awaiting w !! i = Some r /\
                 awaiting w' = delete i (awaiting w) /\
                 (effects w' = effects w ++ [Notify t] \/
                  effects w' = effects w ++ [Refresh; Notify t])).
Proof.
  intros [b | b | b | n t Hn Ht | t | t | He | Hd | i r error Hi]; try by left.
  - destruct (submit_effects w) as [? | (Hok & He1 & He2)]; [by left|].
    right; left. eexists. split; [|split; [exact He1 | exact He2]].
    right. by exists (values (form w)).
  - right; left. exists delete_request. rewrite exec_handleDelete.
    split; [by left | by split].
  - right; right. rewrite exec_answer.
    destruct r as [tbl data col v | tbl col v]; cbn [resume].
    + rewrite exec_onSubmit_resumed.
      destruct error as [e|]; do 3 eexists; (split; [exact Hi|]);
        (split; [reflexivity|]); [left | right]; reflexivity.
    + rewrite exec_handleDelete_resumed.
      destruct error as [e|]; do 3 eexists; (split; [exact Hi|]);
        (split; [reflexivity|]); [left | right]; reflexivity.
Qed.

Lemma z_object_data_keys (sh : Zod.shape) (input : gmap string JS.value)
    (k : string) (v : JS.value) :
  (Zod.z_object sh input).2 !! k = Some v -> k ∈ map fst sh.
Proof.
  induction sh as [|[k' p'] sh IH]; simpl.
  - by rewrite lookup_empty.
  - destruct (Zod.z_object sh input) as [errs data]. simpl in IH.
    destruct (decide (k' = k)) as [->|Hne]; [intros _; apply list_elem_of_here|].
    destruct (p' (get input k')); simpl; rewrite ?lookup_insert_ne by done;
      intros H; apply list_elem_of_further; by apply IH.
Qed.

(** Data that passed validation has the fields of the schema, no other. *)
Lemma valid_data_keys (vs : gmap string JS.value) (k : string) :
  (zodResolver vs).1 = ∅ ->
  is_Some ((zodResolver vs).2 !! k) <-> k ∈ schema_keys.
Proof.
  intros Hok. split.
  - intros [v Hv]. by apply z_object_data_keys in Hv.
  - intros Hin. apply list_elem_of_fmap in Hin as [[k' p] [-> Hin]].
    destruct (valid_field vs k' p Hin Hok) as (v & _ & Hv). by exists v.
Qed.

(** Every request sent, answered or not, was built by the handlers. *)
Lemma requests_built (w : world) :
  steps mount w ->
  Forall built_by_handlers (requests (effects w)) /\
  Forall built_by_handlers (awaiting w).
Proof.
  induction 1 as [|w1 w2 _ [IHe IHa] Hstep]; [by split|].
  destruct (interaction_log w1 w2 (step_cases _ _ Hstep))
    as [[-> ->] | [(r & Hr & -> & ->) | (i & r & t & Hi & -> & He)]].
  - by split.
  - assert (Hone : Forall built_by_handlers [r]) by (by constructor).
    unfold requests. rewrite omap_app. by split; apply Forall_app.
  - split.
    + destruct He as [-> | ->]; unfold requests; rewrite omap_app;
        cbn; by rewrite app_nil_r.
    + rewrite Forall_forall in *. intros x Hx.
      by apply IHa, list_elem_of_delete_inv with i.
Qed.

(** X4: only the author can act on the record: for any other session the
    edit and delete dialogs never open, whatever is clicked, the form is
    never touched, and nothing is ever sent or notified. *)
Theorem other_sessions_send_nothing (w : world) :
  author species <> sessionId ->
  steps mount w ->
  isEditing w = false /\ isDeleting w = false /\ form w = form mount /\
  effects w = [] /\ awaiting w = [].
Proof.
  intros Hne. induction 1 as [|w1 w2 _ (H1 & H2 & H3 & H4 & H5) Hstep];
    [by repeat split|].
  destruct Hstep as [l h Hin | f ty h t Hin Hty | h Hin | h Hin | i r error Hi].
  - rewrite screen_eq, !elem_of_app, buttons_detail, buttons_edit,
      buttons_delete in Hin.
    destruct Hin as [Hin | [[He _] | [Hd _]]]; [|congruence..].
    destruct Hin as [[_ ->] | [_ [[Ha _] | [_ ->]]]]; done.
  - apply inputs_on_screen in Hin as [He _]. congruence.
  - apply forms_on_screen in Hin as [He _]. congruence.
  - apply dismissals_on_screen in Hin as [-> | [-> | ->]]; by repeat split.
  - by rewrite H5 in Hi.
Qed.

(** X5: every request the component ever sends addresses the row of its
    own record in the [species] table: a delete keyed by the identifier
    of the record, or an update keyed by it whose data has exactly the
    seven fields of the schema; the author, which the form also holds,
    is never part of an update. *)
Theorem requests_address_the_record (w : world) (r : request) :
  steps mount w ->
  Request r ∈ effects w ->
  r = delete_ "species" "id" (id species) \/
  exists data, r = update "species" data "id" (id species) /\
    (forall k, is_Some (data !! k) <->
       k ∈ ["scientific_name"; "common_name"; "description"; "kingdom";
            "total_population"; "image"; "endangered"]%string) /\
    data !! "author" = None.
Proof.
  intros Hs Hin. destruct (requests_built w Hs) as [Hb _].
  rewrite Forall_forall in Hb.
  destruct (Hb r) as [-> | (vs & Hok & ->)].
  - unfold requests. apply list_elem_of_omap. by exists (Request r).
  - by left.
  - right. eexists. split; [reflexivity|]. split.
    + intros k. apply (valid_data_keys vs k Hok).
    + destruct ((zodResolver vs).2 !! "author") as [v|] eqn:E; [|done].
      assert (Hk : is_Some ((zodResolver vs).2 !! "author")) by eauto.
      apply (valid_data_keys vs _ Hok) in Hk.
      unfold schema_keys, speciesSchema in Hk. cbn [map fst] in Hk.
      inv_elem Hk; discriminate.
Qed.

(** X6: every request sent is either still waited on or has been
    answered with exactly one toast: the requests sent are as many as the
    toasts shown and the requests in flight together. *)
Theorem one_toast_per_answer (w : world) :
  steps mount w ->
  List.length (requests (effects w))
    = (List.length (notifications (effects w)) + List.length (awaiting w))%nat.
Proof.
  induction 1 as [|w1 w2 _ IH Hstep]; [reflexivity|].
  destruct (interaction_log w1 w2 (step_cases _ _ Hstep))
    as [[-> ->] | [(r & Hr & -> & ->) | (i & r & t & Hi & -> & He)]].
  - exact IH.
  - unfold requests, notifications in *. rewrite !omap_app, !length_app.
    cbn. lia.
  - assert (Hlen : (List.length (delete i (awaiting w1))
                    = List.length (awaiting w1) - 1)%nat)
      by (apply length_delete; eauto).
    apply lookup_lt_Some in Hi.
    destruct He as [-> | ->]; unfold requests, notifications in *;
      rewrite !omap_app, !length_app; cbn; lia.
Qed.

(** *** When a submission goes out, and with what *)

Lemma z_object_keys (sh : Zod.shape) (input : gmap string JS.value)
    (k : string) (i : Zod.issue) :
  (Zod.z_object sh input).1 !! k = Some i -> exists p, (k, p) ∈ sh.
Proof.
  induction sh as [|[k' p'] sh IH]; simpl.
  - by rewrite lookup_empty.
  - destruct (Zod.z_object sh input) as [errs data]. simpl in IH.
    destruct (decide (k' = k)) as [->|Hne].
    + intros _. exists p'. apply list_elem_of_here.
    + destruct (p' (get input k')); simpl; rewrite ?lookup_insert_ne by done;
        intros H; destruct (IH H) as [p Hp]; exists p;
        by apply list_elem_of_further.
Qed.

Lemma nullable_string_valid (v : JS.value) :
  (exists v', Zod.nullable Zod.z_string v = inr v') <-> null_or_string v.
Proof.
  unfold Zod.nullable, Zod.z_string, null_or_string.
  destruct v as [| |b|x|s]; split; intros H; eauto;
    destruct H as [H | [? H]] || destruct H as [? H]; discriminate.
Qed.

(** The resolver reports no error exactly on the values the schema asks for. *)
Lemma resolver_valid_iff (vs : gmap string JS.value) :
  (zodResolver vs).1 = ∅ <-> passes_schema vs.
Proof.
  split.
  - intros Hok. unfold passes_schema.
    destruct (valid_field vs "scientific_name" _ ltac:(in_schema) Hok) as (v1 & H1 & _).
    destruct (valid_field vs "common_name" _ ltac:(in_schema) Hok) as (v2 & H2 & _).
    destruct (valid_field vs "description" _ ltac:(in_schema) Hok) as (v3 & H3 & _).
    destruct (valid_field vs "kingdom" _ ltac:(in_schema) Hok) as (v4 & H4 & _).
    destruct (valid_field vs "total_population" _ ltac:(in_schema) Hok) as (v5 & H5 & _).
    destruct (valid_field vs "image" _ ltac:(in_schema) Hok) as (v6 & H6 & _).
    destruct (valid_field vs "endangered" _ ltac:(in_schema) Hok) as (v7 & H7 & _).
    repeat split.
    + apply scientific_name_valid in H1 as (s & ? & _ & ?). eauto.
    + apply nullable_string_valid. eauto.
    + apply nullable_string_valid. eauto.
    + apply nullable_string_valid. eauto.
    + by apply total_population_valid in H5 as [_ ?].
    + by apply image_valid in H6 as [_ ?].
    + unfold Zod.default, Zod.z_boolean in H7.
      destruct (get vs "endangered"); try discriminate; eauto.
  - intros ((s & Hs & Hne) & H2 & H3 & H4 & H5 & H6 & H7).
    apply map_eq. intros k. rewrite lookup_empty.
    destruct ((zodResolver vs).1 !! k) as [i|] eqn:E; [exfalso|done].
    destruct (z_object_keys _ _ _ _ E) as [p Hp].
    destruct (zodResolver_field vs k p Hp) as [Hf _]. rewrite E in Hf.
    apply nullable_string_valid in H2 as [v2 H2], H3 as [v3 H3], H4 as [v4 H4].
    unfold speciesSchema in Hp. rewrite !elem_of_cons, elem_of_nil in Hp.
    destruct Hp as [Hp | [Hp | [Hp | [Hp | [Hp | [Hp | [Hp | []]]]]]]];
      injection Hp as -> ->.
    + rewrite Hs in Hf. unfold Zod.min, Zod.z_string in Hf.
      destruct s; [done | discriminate].
    + by rewrite H2 in Hf.
    + by rewrite H3 in Hf.
    + by rewrite H4 in Hf.
    + destruct H5 as [H5 | (pop & H5 & Hx)]; rewrite H5 in Hf; [done|].
      unfold Zod.nullable, Zod.z_number in Hf. by rewrite Hx in Hf.
    + destruct H6 as [H6 | (u & H6 & Hu)]; rewrite H6 in Hf; [done|].
      unfold Zod.nullable, Zod.url, Zod.z_string in Hf. by rewrite Hu in Hf.
    + destruct H7 as [H7 | (b & H7)]; by rewrite H7 in Hf.
Qed.

(** X7: a submission of the edit form sends the update exactly when the
    values of the form are what the schema asks for: a non-empty
    scientific name, strings or null for the common name, the
    description and the kingdom, a number that is not NaN or null for the
    total population, a URL or null for the image, a boolean for the
    endangered flag.  Otherwise nothing is sent and the form holds an
    error. *)
Theorem submission_sends_iff_valid (w : world) :
  let vs := values (form w) in
  let w' := exec submit w in
  (passes_schema vs ->
     effects w' = effects w
       ++ [Request (update "species" (zodResolver vs).2 "id" (id species))] /\
     awaiting w' = awaiting w
       ++ [update "species" (zodResolver vs).2 "id" (id species)] /\
     errors (form w') = ∅) /\
  (~ passes_schema vs ->
     effects w' = effects w /\ awaiting w' = awaiting w /\
     errors (form w') <> ∅).
Proof.
  cbn zeta. rewrite <- resolver_valid_iff. split; intros Hv.
  - rewrite submit_valid, exec_onSubmit by done. by repeat split.
  - rewrite exec_submit. cbn zeta.
    destruct (decide ((zodResolver (values (form w))).1 = ∅)); [done|].
    by repeat split.
Qed.

(** X8: the update a submission sends carries, for every text field, the
    total population and the image, the very value the form holds, and for
    the endangered flag the boolean the form holds, or false when it
    holds none. *)
Theorem sent_data_is_form_values (vs : gmap string JS.value) (k : string) :
  passes_schema vs ->
  k ∈ ["scientific_name"; "common_name"; "description"; "kingdom";
       "total_population"; "image"]%string ->
  (zodResolver vs).2 !! k = Some (get vs k) /\
  (zodResolver vs).2 !! "endangered"
    = Some (match get vs "endangered" with
            | undefined => VBool false
            | v => v
            end).
Proof.
  intros Hv Hk. apply resolver_valid_iff in Hv. split.
  - inv_elem Hk; subst;
      match goal with
      | |- _ !! ?f = _ =>
          destruct (valid_field vs f _ ltac:(in_schema) Hv) as (v & Hp & ->)
      end; f_equal.
    + by apply scientific_name_valid in Hp as (s & -> & -> & _).
    + unfold Zod.nullable, Zod.z_string in Hp.
      destruct (get vs "common_name"); by inversion Hp.
    + unfold Zod.nullable, Zod.z_string in Hp.
      destruct (get vs "description"); by inversion Hp.
    + unfold Zod.nullable, Zod.z_string in Hp.
      destruct (get vs "kingdom"); by inversion Hp.
    + by apply total_population_valid in Hp as [-> _].
    + by apply image_valid in Hp as [-> _].
  - destruct (valid_field vs "endangered" _ ltac:(in_schema) Hv) as (v & Hp & ->).
    f_equal. unfold Zod.default, Zod.z_boolean in Hp.
    destruct (get vs "endangered"); by inversion Hp.
Qed.

(** X9: the form on mount, filled from the record, passes the schema
    exactly when the record has a non-empty scientific name, a total
    population that is not NaN, if any, and an image that is a URL, if
    any: only then can the untouched form be saved. *)
Theorem untouched_form_valid_iff :
  passes_schema (values (form mount)) <->
  scientific_name species <> [] /\
  (forall x, total_population species = Some x -> is_NaN x = false) /\
  (forall u, image species = Some u -> is_url u = true).
Proof.
  unfold passes_schema.
  change (get (values (form mount)) "scientific_name")
    with (VStr (scientific_name species)).
  change (get (values (form mount)) "common_name")
    with (of_nullable VStr (common_name species)).
  change (get (values (form mount)) "description")
    with (of_nullable VStr (description species)).
  change (get (values (form mount)) "kingdom")
    with (of_nullable VStr (kingdom species)).
  change (get (values (form mount)) "total_population")
    with (of_nullable VNum (total_population species)).
  change (get (values (form mount)) "image")
    with (of_nullable VStr (image species)).
  change (get (values (form mount)) "endangered")
    with (VBool (endangered species)).
  split.
  - intros ((s & [= <-] & Hs) & _ & _ & _ & Hp & Hi & _). split; [done|]. split.
    + intros x Hx. rewrite Hx in Hp.
      destruct Hp as [Hp | (y & [= <-] & Hy)]; [discriminate | done].
    + intros u Hu. rewrite Hu in Hi.
      destruct Hi as [Hi | (y & [= <-] & Hy)]; [discriminate | done].
  - intros (Hs & Hp & Hi). unfold null_or_string. repeat split.
    + eauto.
    + destruct (common_name species); cbn; eauto.
    + destruct (description species); cbn; eauto.
    + destruct (kingdom species); cbn; eauto.
    + destruct (total_population species) as [x|]; cbn; eauto.
    + destruct (image species) as [u|]; cbn; eauto.
    + eauto.
Qed.

(** *** The inputs of the edit form *)

(** X10: an input of the edit form, given a target of its own type,
    writes one value into the field it is named after and nothing else:
    the checkbox its checked state, the number input the number its text
    converts to, every other input its text.  The error of that field is
    what the schema says of the new values, the errors of the other
    fields stay, the dialogs stay, and nothing is sent. *)
Theorem inputs_edit_own_field (w : world) (f ty : jsstring)
    (h : target -> M unit) (t : target) :
  input f ty h ∈ screen w ->
  type t = ty ->
  let w' := exec (h t) w in
  effects w' = effects w /\ awaiting w' = awaiting w /\
  open w' = open w /\ isEditing w' = isEditing w /\
  isDeleting w' = isDeleting w /\
  exists n, f = lit n /\ n ∈ schema_keys /\
    values (form w')
      = <[n := if bool_decide (ty = lit "checkbox") then VBool (checked t)
               else if bool_decide (ty = lit "number")
                    then VNum (Number (value_ t))
                    else VStr (value_ t)]> (values (form w)) /\
    errors (form w') !! n = (zodResolver (values (form w'))).1 !! n /\
    forall k, k <> n -> errors (form w') !! k = errors (form w) !! k.
Proof.
  intros Hin Hty. cbn zeta.
  assert (Hframe : forall n c,
    let w' := exec (modify_form (field_onChange zodResolver n c)) w in
    awaiting w' = awaiting w /\
    forall k, k <> n -> errors (form w') !! k = errors (form w) !! k).
  { intros n c. cbn zeta. split; [reflexivity|]. intros k Hk.
    unfold exec, modify_form, field_onChange. cbn [snd form errors].
    destruct ((zodResolver _).1 !! n);
      by rewrite ?lookup_insert_ne, ?lookup_delete_ne. }
  apply inputs_on_screen in Hin
    as [_ [(n & Hn & -> & -> & ->) | [(-> & -> & ->) | (-> & -> & ->)]]].
  - unfold change_text.
    destruct (exec_field_onChange n (event t) w)
      as (Hv & _ & He & Hl & Ho & Hed & Hdl).
    destruct (Hframe n (event t)) as [Ha Hk].
    repeat (split; [assumption|]). exists n. split; [done|]. split.
    { unfold schema_keys, speciesSchema. cbn [map fst].
      unfold text_fields in Hn. inv_elem Hn; subst; elem_here. }
    split; [|by split].
    rewrite Hv, text_event_value.
    + destruct (String.eqb n "description"); by vm_compute.
    + rewrite Hty. destruct (String.eqb n "description"); auto.
  - unfold change_number.
    destruct (exec_field_onChange "total_population"
                (plain (VNum (Number (value_ t)))) w)
      as (Hv & _ & He & Hl & Ho & Hed & Hdl).
    destruct (Hframe "total_population"
                (plain (VNum (Number (value_ t))))) as [Ha Hk].
    repeat (split; [assumption|]). exists "total_population"%string.
    split; [done|]. split; [unfold schema_keys, speciesSchema; elem_here|].
    split; [|by split]. exact Hv.
  - unfold change_checked.
    destruct (exec_field_onChange "endangered" (plain (VBool (checked t))) w)
      as (Hv & _ & He & Hl & Ho & Hed & Hdl).
    destruct (Hframe "endangered" (plain (VBool (checked t)))) as [Ha Hk].
    repeat (split; [assumption|]). exists "endangered"%string.
    split; [done|]. split; [unfold schema_keys, speciesSchema; elem_here|].
    split; [|by split]. exact Hv.
Qed.

(** X12: the error under the Image URL input follows the input as it is
    typed into: after each change the field is in error exactly when the
    text is no URL, the message [Invalid url] is rendered under the
    input exactly then, and the errors of the other fields are as before. *)
Theorem image_error_follows_input (w : world) (t : target) :
  isEditing w = true ->
  type t = lit "text" ->
  let w' := exec (change_text "image" t) w in
  errors (form w') !! "image"
    = (if is_url (value_ t) then None else Some Zod.invalid_url) /\
  at_path [5; 0; 1; 0; 5; 0; 2]%nat (SpeciesCard w')
    = Some (if is_url (value_ t) then nothing
            else elem "p" [] [text (lit "Invalid url")]) /\
  forall k, k <> "image"%string ->
    errors (form w') !! k = errors (form w) !! k.
Proof.
  intros Hed Hty. cbn zeta. unfold change_text.
  destruct (exec_field_onChange "image" (event t) w)
    as (Hv & _ & He & _ & _ & Hed' & _).
  set (w' := exec _ w) in *.
  assert (Herr : errors (form w') !! "image"
                 = if is_url (value_ t) then None else Some Zod.invalid_url).
  { rewrite He.
    destruct (zodResolver_field (values (form w')) "image" _ ltac:(in_schema))
      as [-> _].
    rewrite Hv, get_insert, text_event_value by auto.
    destruct (decide ("image"%string = "image"%string)); [|done].
    unfold Zod.nullable, Zod.url, Zod.z_string. by destruct (is_url (value_ t)). }
  split; [exact Herr|]. split.
  - destruct (message_at_path w') as [_ ->]; [by rewrite Hed'|].
    unfold FormMessage. rewrite Herr. by destruct (is_url (value_ t)).
  - intros k Hk. subst w'. unfold exec, modify_form, field_onChange.
    cbn [snd form errors].
    destruct ((zodResolver _).1 !! "image");
      by rewrite ?lookup_insert_ne, ?lookup_delete_ne.
Qed.

(** *** Submissions in a row *)

(** X13: nothing holds a second submission back while the first is
    waited on: submitting a valid form twice sends the same update twice,
    and both are waited on. *)
Theorem double_submission_sends_twice (w : world) (data : gmap string JS.value) :
  zodResolver (values (form w)) = (∅, data) ->
  let r := update "species" data "id" (id species) in
  let w2 := exec submit (exec submit w) in
  effects w2 = effects w ++ [Request r; Request r] /\
  awaiting w2 = awaiting w ++ [r; r] /\
  values (form w2) = values (form w).
Proof.
  intros Hr. cbn zeta.
  assert (H1 : exec submit w = exec (onSubmit data) (with_errors ∅ w)).
  { rewrite submit_valid by (by rewrite Hr). by rewrite Hr. }
  assert (Hv : values (form (exec submit w)) = values (form w))
    by (by rewrite H1).
  assert (H2 : exec submit (exec submit w)
               = exec (onSubmit data) (with_errors ∅ (exec submit w))).
  { rewrite submit_valid by (by rewrite Hv, Hr). by rewrite Hv, Hr. }
  rewrite H2, !exec_onSubmit. cbn [effects awaiting form].
  rewrite H1, !exec_onSubmit. cbn [effects awaiting form].
  unfold with_errors, exec, modify_form, update_request.
  cbn [snd effects awaiting form values]. rewrite <- !app_assoc.
  by repeat split.
Qed.

(** The resolver accepts the data it produced, as it is. *)
Lemma resolver_idempotent (vs : gmap string JS.value) :
  (zodResolver vs).1 = ∅ ->
  zodResolver (zodResolver vs).2 = (∅, (zodResolver vs).2).
Proof.
  intros Hok.
  assert (Hp : passes_schema (zodResolver vs).2).
  { pose proof Hok as Hv. apply resolver_valid_iff in Hv.
    destruct Hv as ((s & Hs & Hne) & H2 & H3 & H4 & H5 & H6 & H7).
    assert (Hget : forall k p v, (k, p) ∈ speciesSchema ->
              p (get vs k) = inr v -> get (zodResolver vs).2 k = v).
    { intros k p v Hin Hpv.
      destruct (valid_field vs k p Hin Hok) as (v' & Hpv' & Hd).
      unfold get. rewrite Hd. congruence. }
    unfold passes_schema.
    rewrite (Hget "scientific_name" _ (VStr s) ltac:(in_schema))
      by (rewrite Hs; unfold Zod.min, Zod.z_string; by destruct s).
    rewrite (Hget "common_name" _ (get vs "common_name") ltac:(in_schema))
      by (destruct H2 as [-> | [? ->]]; reflexivity).
    rewrite (Hget "description" _ (get vs "description") ltac:(in_schema))
      by (destruct H3 as [-> | [? ->]]; reflexivity).
    rewrite (Hget "kingdom" _ (get vs "kingdom") ltac:(in_schema))
      by (destruct H4 as [-> | [? ->]]; reflexivity).
    rewrite (Hget "total_population" _ (get vs "total_population")
               ltac:(in_schema))
      by (destruct H5 as [-> | (? & -> & Hx)]; [reflexivity|];
          unfold Zod.nullable, Zod.z_number; by rewrite Hx).
    rewrite (Hget "image" _ (get vs "image") ltac:(in_schema))
      by (destruct H6 as [-> | (? & -> & Hu)]; [reflexivity|];
          unfold Zod.nullable, Zod.url, Zod.z_string; by rewrite Hu).
    rewrite (Hget "endangered" _
               (match get vs "endangered" with
                | undefined => VBool false | v => v end) ltac:(in_schema))
      by (destruct H7 as [-> | [? ->]]; reflexivity).
    repeat split; eauto.
    right. destruct H7 as [-> | [b ->]]; eauto. }
  pose proof Hp as Hok2. apply resolver_valid_iff in Hok2.
  destruct (zodResolver (zodResolver vs).2) as [errs data2] eqn:E.
  cbn [fst] in Hok2. subst errs. f_equal.
  apply map_eq. intros k.
  destruct (decide (k ∈ schema_keys)) as [Hk|Hk].
  - unfold schema_keys in Hk. apply list_elem_of_fmap in Hk as ([k' p] & -> & Hin).
    cbn [fst].
    assert (Hok2 : (zodResolver (zodResolver vs).2).1 = ∅) by (by rewrite E).
    destruct (valid_field _ k' p Hin Hok2) as (v2 & Hp2 & Hd2).
    rewrite E in Hd2. cbn [snd] in Hd2. rewrite Hd2.
    destruct (valid_field vs k' p Hin Hok) as (v1 & Hp1 & Hd1).
    rewrite Hd1. f_equal. unfold get in Hp2. rewrite Hd1 in Hp2.
    unfold speciesSchema in Hin. rewrite !elem_of_cons, elem_of_nil in Hin.
    destruct Hin as [Hin | [Hin | [Hin | [Hin | [Hin | [Hin | [Hin | []]]]]]]];
      injection Hin as -> ->.
    + apply scientific_name_valid in Hp2 as (? & -> & -> & _). done.
    + unfold Zod.nullable, Zod.z_string in Hp2. destruct v1; by inversion Hp2.
    + unfold Zod.nullable, Zod.z_string in Hp2. destruct v1; by inversion Hp2.
    + unfold Zod.nullable, Zod.z_string in Hp2. destruct v1; by inversion Hp2.
    + by apply total_population_valid in Hp2 as [-> _].
    + by apply image_valid in Hp2 as [-> _].
    + unfold Zod.default, Zod.z_boolean in Hp1, Hp2.
      destruct (get vs "endangered"); inversion Hp1; subst; by inversion Hp2.
  - assert (Hok2 : (zodResolver (zodResolver vs).2).1 = ∅) by (by rewrite E).
    pose proof (valid_data_keys _ k Hok2) as Hk2. rewrite E in Hk2.
    pose proof (valid_data_keys vs k Hok) as Hk1.
    destruct (data2 !! k) eqn:E2; [exfalso; apply Hk, Hk2; eauto|].
    destruct ((zodResolver vs).2 !! k) eqn:E1; [exfalso; apply Hk, Hk1; eauto|].
    done.
Qed.

(** X14: after an update was accepted the form holds the data that was
    sent, and that data passes the schema again unchanged, so that
    submitting the form once more sends the same update again. *)
Theorem resubmission_sends_same_data (w : world) (vs : gmap string JS.value) :
  (zodResolver vs).1 = ∅ ->
  let data := (zodResolver vs).2 in
  let r := update "species" data "id" (id species) in
  let w1 := exec (resume r None) w in
  values (form w1) = data /\
  errors (form w1) = ∅ /\
  isEditing w1 = false /\
  effects (exec submit w1) = effects w1 ++ [Request r] /\
  awaiting (exec submit w1) = awaiting w1 ++ [r].
Proof.
  intros Hok. cbn zeta. cbn [resume]. rewrite exec_onSubmit_resumed.
  split; [reflexivity|]. split; [reflexivity|]. split; [reflexivity|].
  set (w1 := Build_world _ _ _ _ _ _).
  assert (Hv : values (form w1) = (zodResolver vs).2) by reflexivity.
  pose proof (resolver_idempotent vs Hok) as Hi.
  rewrite submit_valid by (by rewrite Hv, Hi).
  rewrite Hv, Hi, exec_onSubmit. by split.
Qed.

(** *** The controls that send nothing *)

(** X15: of all the buttons the component shows, only Save Changes and
    Confirm Delete reach the backend: any other button (Learn More,
    Edit Species, Delete Species, Close, Cancel) and any dismissal of a
    dialog leave the form and its errors as they are, send nothing and
    show no toast. *)
Theorem other_controls_send_nothing (w : world) (l : jsstring) (h : M unit) :
  button l h ∈ screen w ->
  l <> lit "Save Changes" ->
  l <> lit "Confirm Delete" ->
  (form (exec h w) = form w /\ effects (exec h w) = effects w /\
   awaiting (exec h w) = awaiting w) /\
  (forall h', dismiss h' ∈ screen w ->
     form (exec h' w) = form w /\ effects (exec h' w) = effects w /\
     awaiting (exec h' w) = awaiting w).
Proof.
  intros Hin Hsave Hconfirm. split.
  - rewrite screen_eq, !elem_of_app, buttons_detail, buttons_edit,
      buttons_delete in Hin.
    split_hyps; subst; done.
  - intros h' Hd.
    apply dismissals_on_screen in Hd as [-> | [-> | ->]]; by repeat split.
Qed.

(** *** What the form keeps and what it loses *)

(** X16: closing the edit dialog does not reset the form: text typed
    into a field is still the value its input shows when the dialog is
    closed and opened again. *)
Theorem edits_survive_cancel (w : world) (n : string) (i : nat) (t : target) :
  (n, i) ∈ [("scientific_name", 0); ("common_name", 1); ("kingdom", 2);
            ("image", 5); ("description", 6)]%string%nat ->
  type t = lit "text" \/ type t = lit "textarea" ->
  let w1 := exec (change_text n t) w in
  let w2 := exec (setIsEditing true) (exec (setIsEditing false) w1) in
  form w2 = form w1 /\
  exists tag ps,
    at_path [5; 0; 1; 0; i; 0; 1; 0]%nat (SpeciesCard w2) = Some (elem tag ps []) /\
    get_attr "name" ps = VStr (lit n) /\
    get_attr "value" ps = VStr (value_ t).
Proof.
  intros Hn Hty. cbn zeta. split; [reflexivity|].
  assert (Hg : get (values (form (exec (change_text n t) w))) n
               = VStr (value_ t)).
  { unfold change_text.
    destruct (exec_field_onChange n (event t) w) as (-> & _).
    rewrite get_insert, text_event_value by done.
    by destruct (decide (n = n)). }
  rewrite !elem_of_cons, elem_of_nil in Hn.
  destruct Hn as [Hn | [Hn | [Hn | [Hn | [Hn | []]]]]]; injection Hn as -> ->;
    (do 2 eexists; split; [reflexivity|]; split; [reflexivity|]);
    cbn [text_props get_attr name value String.eqb Ascii.eqb Bool.eqb];
    change (form (exec (setIsEditing true) (exec (setIsEditing false) ?x)))
      with (form x); by rewrite Hg.
Qed.

(** X17: an update that is accepted puts into the form the data that
    was sent with it, not what the form holds when the answer arrives:
    text typed into a field while the update is waited on is gone once
    the update succeeds, and the field is back to the value that was
    sent. *)
Theorem accepted_update_discards_later_edits (w : world)
    (data : gmap string JS.value) (n : string) (t : target) :
  zodResolver (values (form w)) = (∅, data) ->
  n ∈ text_fields ->
  type t = lit "text" \/ type t = lit "textarea" ->
  let r := update "species" data "id" (id species) in
  let i := List.length (awaiting w) in
  let w2 := exec (change_text n t) (exec submit w) in
  let w3 := exec (answered i;; resume r None) w2 in
  awaiting w2 !! i = Some r /\
  get (values (form w2)) n = VStr (value_ t) /\
  values (form w3) = data /\
  get (values (form w3)) n = get (values (form w)) n /\
  awaiting w3 = awaiting w.
Proof.
  intros Hr Hn Hty. cbn zeta.
  assert (H1 : exec submit w = exec (onSubmit data) (with_errors ∅ w)).
  { rewrite submit_valid by (by rewrite Hr). by rewrite Hr. }
  rewrite H1, exec_onSubmit. unfold change_text.
  destruct (exec_field_onChange n (event t)
              (Build_world (open (with_errors ∅ w)) (isEditing (with_errors ∅ w))
                 (isDeleting (with_errors ∅ w)) (form (with_errors ∅ w))
                 (effects (with_errors ∅ w) ++ [Request (update_request data)])
                 (awaiting (with_errors ∅ w) ++ [update_request data])))
    as (Hv & _).
  set (w2 := exec (modify_form _) _) in *.
  assert (Ha : awaiting w2 = awaiting w ++ [update "species" data "id" (id species)])
    by reflexivity.
  split; [|split; [|split; [|split]]].
  - rewrite Ha. by apply list_lookup_middle.
  - rewrite Hv, get_insert, text_event_value by done.
    by destruct (decide (n = n)).
  - rewrite exec_answer. cbn [resume]. by rewrite exec_onSubmit_resumed.
  - rewrite exec_answer. cbn [resume]. rewrite exec_onSubmit_resumed.
    cbn [form reset values].
    assert (Hok : (zodResolver (values (form w))).1 = ∅) by (by rewrite Hr).
    assert (Hd : data = (zodResolver (values (form w))).2) by (by rewrite Hr).
    clear Hty. unfold text_fields in Hn. inv_elem Hn; subst n;
      match goal with
      | |- get _ ?f = _ =>
          destruct (valid_field (values (form w)) f _ ltac:(in_schema) Hok)
            as (v & Hp & Hl)
      end; rewrite <- Hd in Hl; unfold get at 1; rewrite Hl.
    + by apply scientific_name_valid in Hp as (s & -> & -> & _).
    + unfold Zod.nullable, Zod.z_string in Hp.
      destruct (get (values (form w)) "common_name"); by inversion Hp.
    + unfold Zod.nullable, Zod.z_string in Hp.
      destruct (get (values (form w)) "kingdom"); by inversion Hp.
    + by apply image_valid in Hp as [-> _].
    + unfold Zod.nullable, Zod.z_string in Hp.
      destruct (get (values (form w)) "description"); by inversion Hp.
  - rewrite exec_answer. cbn [resume]. rewrite exec_onSubmit_resumed.
    cbn [awaiting]. unfold exec, answered. cbn [snd awaiting]. rewrite Ha.
    rewrite delete_middle. by rewrite app_nil_r.
Qed.

End SpeciesCard.

(** ** Strings and numbers on examples *)

Example trim_ex : trim (lit "  a b  ") = lit "a b".
Proof. reflexivity. Qed.
Example Number_empty : Number [] = zero.
Proof. reflexivity. Qed.
Example Number_42 : Number (lit "42") = S754_finite false 5910974510923776 (-47).
Proof. vm_compute. reflexivity. Qed.
Example Number_tenth :
  Number (lit "0.1") = S754_finite false 7205759403792794 (-56).
Proof. vm_compute. reflexivity. Qed.
Example Number_overflow : Number (lit "1e400") = S754_infinity false.
Proof. vm_compute. reflexivity. Qed.
Example Number_neg_zero : Number (lit "-0") = S754_zero true.
Proof. vm_compute. reflexivity. Qed.
Example Number_hex : Number (lit "0x1F") = Number (lit "31").
Proof. vm_compute. reflexivity. Qed.
Example Number_not_numeric :
  Number (lit "12px") = NaN /\ Number (lit ".") = NaN /\ Number (lit "1e") = NaN.
Proof. vm_compute. repeat split. Qed.

(** ** The properties on sample data *)

(** The card of a record with a long description: the 150th code unit is
    a space, which the trim removes. *)
Lemma card_truncates_long_description_witness :
  description Sample.lion = Some Sample.long_description /\
  (150 < JS.length Sample.long_description)%nat /\
  at_path [3%nat]
    (SpeciesCard Sample.has_scheme Sample.lion (lit "user-1") (mount Sample.lion))
    = Some (elem "p" [] [text (repeat 97%N 149 ++ lit "...")]).
Proof.
  split; [reflexivity|]. split; [vm_compute; lia|].
  destruct (card_truncates_long_description Sample.has_scheme Sample.lion
              (lit "user-1") (mount Sample.lion) Sample.long_description eq_refl)
    as (f & r & ws1 & t & ws2 & _ & _ & _ & _ & _ & _ & Ht & Hp).
  - vm_compute; lia.
  - rewrite Hp, Ht. reflexivity.
Defined.

Lemma detail_shows_full_description_witness :
  description Sample.wren = Some (lit "  A very small bird. ") /\
  (JS.length (lit "  A very small bird. ") <= 150)%nat /\
  at_path [4; 1; 1; 4]%nat
    (SpeciesCard Sample.has_scheme Sample.wren (lit "user-1") (mount Sample.wren))
    = Some (elem "p" [className "mt-2"] [text (lit "  A very small bird. ")]).
Proof.
  split; [reflexivity|]. split; [vm_compute; lia|].
  apply (detail_shows_full_description Sample.has_scheme Sample.wren
           (lit "user-1") (mount Sample.wren) (lit "  A very small bird. ") eq_refl).
  vm_compute; lia.
Defined.

(** A short description, with white space at both ends, gets the
    ellipsis too. *)
Lemma card_description_ellipsis_witness :
  description Sample.wren = Some (lit "  A very small bird. ") /\
  (exists ws1 t ws2,
     lit "  A very small bird. " = ws1 ++ t ++ ws2 /\
     blank ws1 /\ blank ws2 /\ tight t /\
     card_description Sample.wren = t ++ lit "...") /\
  card_description Sample.wren = lit "A very small bird....".
Proof.
  split; [reflexivity|]. split; [|reflexivity].
  destruct (proj1 (card_description_ellipsis Sample.has_scheme Sample.wren
                     (lit "user-2") (mount Sample.wren))
              (lit "  A very small bird. ") eq_refl)
    as (f & rest & ws1 & t & ws2 & _ & _ & _ & Hb1 & Hb2 & Ht & _ & Hshort & Hc & _).
  - discriminate.
  - exists ws1, t, ws2. destruct Hshort as [_ Hd]; [vm_compute; lia|].
    by repeat split; try apply Ht.
Defined.

Example card_description_short :
  card_description Sample.wren = lit "A very small bird....".
Proof. reflexivity. Qed.

(** The author sees the two buttons in the open detail dialog; another
    user does not. *)
Lemma owner_controls_iff_author_witness :
  let w := exec (setOpen true) (mount Sample.lion) in
  button (lit "Edit Species") (setIsEditing true)
    ∈ screen Sample.has_scheme Sample.lion (lit "user-1") w /\
  lit "Edit Species"
    ∉ button_labels (SpeciesCard Sample.has_scheme Sample.lion (lit "user-2") w).
Proof.
  cbn zeta. split.
  - apply (owner_controls_iff_author Sample.has_scheme Sample.lion (lit "user-1")).
    by repeat split.
  - rewrite (proj1 (owner_controls_iff_author Sample.has_scheme Sample.lion
                      (lit "user-2") _)).
    intros H. lit_neq H.
Defined.

(** The scientific name is emptied and the form submitted: nothing is
    sent, and the message is on screen. *)
Lemma empty_scientific_name_blocks_update_witness :
  let submit := submit Sample.has_scheme Sample.lion in
  let w := exec (change_text Sample.has_scheme "scientific_name" (Sample.typed []))
             (exec (setIsEditing true) (exec (setOpen true) (mount Sample.lion))) in
  isEditing w = true /\
  get (values (form w)) "scientific_name" = VStr [] /\
  effects (exec submit w) = [] /\
  lit "Scientific name is required."
    ∈ texts true (SpeciesCard Sample.has_scheme Sample.lion (lit "user-1")
                    (exec submit w)).
Proof.
  cbn zeta. split; [reflexivity|]. split; [vm_compute; reflexivity|].
  destruct (empty_scientific_name_blocks_update Sample.has_scheme Sample.lion
              (lit "user-1")
              (exec (change_text Sample.has_scheme "scientific_name" (Sample.typed []))
                 (exec (setIsEditing true) (exec (setOpen true) (mount Sample.lion))))
              eq_refl) as (_ & H & _).
  destruct H as (He & _ & _ & _ & _ & Ht); [vm_compute; reflexivity|].
  split; [rewrite He; reflexivity | exact Ht].
Defined.

(** Text that is no URL in the image field: nothing is sent. *)
Lemma invalid_image_blocks_update_witness :
  let submit := submit Sample.has_scheme Sample.lion in
  let w := exec (change_text Sample.has_scheme "image" (Sample.typed (lit "not a url")))
             (exec (setIsEditing true) (exec (setOpen true) (mount Sample.lion))) in
  isEditing w = true /\
  get (values (form w)) "image" = VStr (lit "not a url") /\
  VStr (lit "not a url") <> null /\
  Sample.has_scheme (lit "not a url") = false /\
  effects (exec submit w) = effects w.
Proof.
  cbn zeta. split; [reflexivity|]. split; [vm_compute; reflexivity|].
  split; [discriminate|]. split; [reflexivity|].
  apply (invalid_image_blocks_update Sample.has_scheme Sample.lion (lit "user-1")
           _ (VStr (lit "not a url"))).
  - reflexivity.
  - vm_compute; reflexivity.
  - discriminate.
  - intros s [= <-]. reflexivity.
Defined.

(** The untouched form of a valid record is submitted: one request goes
    out and the dialog stays open; the backend then refuses: the dialog
    and the form are as before, and the toast carries the message. *)
Lemma update_outcome_witness :
  let w := exec (setIsEditing true) (exec (setOpen true) (mount Sample.wren)) in
  let data := (zodResolver Sample.has_scheme (values (form w))).2 in
  let r := update "species" data "id" (id Sample.wren) in
  let w1 := exec (submit Sample.has_scheme Sample.wren) w in
  let w2 := exec (answered 0;; resume r (Some Sample.denied)) w1 in
  isEditing w = true /\
  zodResolver Sample.has_scheme (values (form w)) = (∅, data) /\
  effects w1 = [Request r] /\
  awaiting w1 = [r] /\
  isEditing w2 = true /\
  form w2 = form w1 /\
  effects w2
    = [Request r;
       Notify {| Toast.title := lit "Something went wrong.";
                 Toast.description := Some (lit "permission denied");
                 Toast.variant := Some "destructive" |}].
Proof.
  cbn zeta. split; [reflexivity|].
  assert (Hvalid : zodResolver Sample.has_scheme (values (form
            (exec (setIsEditing true) (exec (setOpen true) (mount Sample.wren)))))
          = (∅, (zodResolver Sample.has_scheme (values (form
            (exec (setIsEditing true) (exec (setOpen true) (mount Sample.wren)))))).2))
    by (vm_compute; reflexivity).
  split; [exact Hvalid|].
  destruct (update_outcome Sample.has_scheme Sample.wren (lit "user-2")
              (exec (setIsEditing true) (exec (setOpen true) (mount Sample.wren)))
              _ (Some Sample.denied) eq_refl Hvalid)
    as (_ & (H1 & H2 & _ & H3 & _) & H4).
  split; [exact H1|]. split; [exact H2|].
  rewrite exec_answer.
  destruct (H4 (exec (answered 0)
                  (exec (submit Sample.has_scheme Sample.wren)
                     (exec (setIsEditing true) (exec (setOpen true) (mount Sample.wren))))))
    as (_ & _ & _ & H5 & H6 & H7).
  split; [rewrite H5; exact H3|]. split; [exact H6|].
  rewrite H7. cbn [effects answered exec snd]. by rewrite H1.
Defined.

(** The same submission accepted: the dialog closes, a refresh and the
    toast of success follow. *)
Example update_accepted :
  let w := exec (setIsEditing true) (exec (setOpen true) (mount Sample.wren)) in
  let data := (zodResolver Sample.has_scheme (values (form w))).2 in
  let r := update "species" data "id" (id Sample.wren) in
  let w2 := exec (answered 0;; resume r None)
              (exec (submit Sample.has_scheme Sample.wren) w) in
  isEditing w2 = false /\
  values (form w2) = data /\
  awaiting w2 = [] /\
  effects w2
    = [Request r; Refresh;
       Notify {| Toast.title := lit "Species updated successfully!";
                 Toast.description := None; Toast.variant := None |}].
Proof. cbn zeta. repeat split; vm_compute; reflexivity. Qed.

(** Confirming the deletion of a record, which the backend accepts. *)
Lemma delete_confirm_and_cancel_witness :
  let w := exec (setIsDeleting true) (exec (setOpen true) (mount Sample.lion)) in
  let r := delete_ "species" "id" (id Sample.lion) in
  let w1 := exec (handleDelete Sample.lion) w in
  let w2 := exec (resume r None) (exec (answered 0) w1) in
  isDeleting w = true /\
  effects w1 = [Request r] /\
  isDeleting w1 = true /\
  isDeleting w2 = false /\
  effects (exec (setIsDeleting false) w) = [].
Proof.
  cbn zeta. split; [reflexivity|].
  destruct (delete_confirm_and_cancel Sample.has_scheme Sample.lion (lit "user-1")
              (exec (setIsDeleting true) (exec (setOpen true) (mount Sample.lion)))
              None eq_refl)
    as (_ & (H1 & _ & _ & _ & H2 & _) & (_ & H3 & _) & H4).
  split; [exact H1|]. split; [exact H2|]. split; [|exact H3].
  apply H4.
Defined.

(** Clearing the Total Population input stores 0; typing 42 stores 42. *)
Lemma population_edit_stores_number_witness :
  let w := exec (setIsEditing true) (exec (setOpen true) (mount Sample.wren)) in
  let stored t :=
    get (values (form (exec (change_number Sample.has_scheme
                               "total_population" t) w))) "total_population" in
  isEditing w = true /\
  stored (Sample.typed_number []) = VNum (S754_zero false) /\
  stored (Sample.typed_number (lit "42"))
    = VNum (S754_finite false 5910974510923776 (-47)) /\
  (5910974510923776 = 42 * 2 ^ 47)%Z.
Proof.
  cbn zeta. split; [reflexivity|]. split; [|split; [|reflexivity]].
  - destruct (population_edit_stores_number Sample.has_scheme Sample.wren
                (lit "user-2")
                (exec (setIsEditing true) (exec (setOpen true) (mount Sample.wren)))
                (Sample.typed_number []) eq_refl) as (_ & _ & H & _).
    exact (H eq_refl).
  - destruct (population_edit_stores_number Sample.has_scheme Sample.wren
                (lit "user-2")
                (exec (setIsEditing true) (exec (setOpen true) (mount Sample.wren)))
                (Sample.typed_number (lit "42")) eq_refl)
      as (_ & _ & _ & (x & Hx & _ & Hnum) & _).
    rewrite Hx, (Hnum [4; 2]%N).
    + vm_compute. reflexivity.
    + discriminate.
    + by repeat constructor.
    + reflexivity.
Defined.

(** C9, counterexample: the record has no total population.  The author
    saves the untouched form, and while that update is waited on types 5
    and saves again; the first update is then accepted, which puts its
    data, with the null, back into the form; the author opens the edit
    dialog again and saves: the updates sent carry null, 5 and null, so
    that an update sent after the edit sets the total population to
    null. *)
Lemma population_null_after_number :
  let is_url := Sample.has_scheme in
  let submit := submit is_url Sample.lion in
  let steps := steps is_url Sample.lion (lit "user-1") in
  let w0 := exec (setIsEditing true) (exec (setOpen true) (mount Sample.lion)) in
  let w1 := exec submit w0 in
  let w2 := exec (change_number is_url "total_population"
                    (Sample.typed_number (lit "5"))) w1 in
  let w3 := exec submit w2 in
  let r1 := update "species" (zodResolver is_url (values (form w0))).2
              "id" (id Sample.lion) in
  let w4 := exec (answered 0;; resume r1 None) w3 in
  let w5 := exec (setIsEditing true) w4 in
  let w6 := exec submit w5 in
  steps (mount Sample.lion) w2 /\
  isEditing w1 = true /\
  get (values (form w2)) "total_population" = VNum (Number (lit "5")) /\
  steps w2 w6 /\
  sent "total_population" (effects w6)
    = [Some null; Some (VNum (Number (lit "5"))); Some null] /\
  ~ (forall w'', steps w2 w'' ->
       forall tbl data col v,
         Request (update tbl data col v)
           ∈ drop (List.length (effects w2)) (effects w'') ->
         exists x, data !! "total_population" = Some (VNum x)).
Proof.
  intros is_url submit steps w0 w1 w2 w3 r1 w4 w5 w6.
  assert (He1 : isEditing w1 = true) by (vm_compute; reflexivity).
  assert (Hs26 : steps w2 w6).
  { eapply steps_step; [eapply steps_step; [eapply steps_step;
      [eapply steps_step; [apply steps_refl|]|]|]|].
    - apply (step_submit is_url Sample.lion (lit "user-1") w2 submit).
      apply submit_on_screen. vm_compute. reflexivity.
    - apply (step_answer is_url Sample.lion (lit "user-1") w3 0 r1 None).
      vm_compute. reflexivity.
    - apply (step_click is_url Sample.lion (lit "user-1") w4
               (lit "Edit Species") (setIsEditing true)).
      rewrite screen_eq, !elem_of_app. left. apply (buttons_detail is_url).
      right. split; [vm_compute; reflexivity|]. left.
      split; [reflexivity|]. left. split; reflexivity.
    - apply (step_submit is_url Sample.lion (lit "user-1") w5 submit).
      by apply submit_on_screen. }
  split; [|split; [exact He1|split; [|split; [exact Hs26|split]]]].
  - eapply steps_step; [eapply steps_step; [eapply steps_step;
      [eapply steps_step; [apply steps_refl|]|]|]|].
    + apply (step_click is_url Sample.lion (lit "user-1") (mount Sample.lion)
               (lit "Learn More") (setOpen true)).
      rewrite screen_eq, !elem_of_app. left. apply (buttons_detail is_url).
      left. split; reflexivity.
    + apply (step_click is_url Sample.lion (lit "user-1") _
               (lit "Edit Species") (setIsEditing true)).
      rewrite screen_eq, !elem_of_app. left. apply (buttons_detail is_url).
      right. split; [reflexivity|]. left.
      split; [reflexivity|]. left. split; reflexivity.
    + apply (step_submit is_url Sample.lion (lit "user-1") w0 submit).
      by apply submit_on_screen.
    + apply (step_change is_url Sample.lion (lit "user-1") w1
               (lit "total_population") (lit "number")
               (change_number is_url "total_population")
               (Sample.typed_number (lit "5"))); [|reflexivity].
      apply edit_dialog_on_screen. rewrite controls_edit, He1. elem_here.
  - vm_compute. reflexivity.
  - vm_compute. reflexivity.
  - intros Hnever.
    destruct (Hnever w6 Hs26 "species"%string
                (zodResolver is_url (values (form w5))).2 "id"%string
                (id Sample.lion)) as [x Hx].
    + apply list_elem_of_lookup_2 with 3%nat. vm_compute. reflexivity.
    + vm_compute in Hx. discriminate Hx.
Qed.



(** ** The further properties on sample data *)

(** A description of three spaces is shown as the ellipsis alone. *)
Lemma card_description_of_blanks_witness :
  description Sample.moss = Some (lit "   ") /\
  card_description Sample.moss = lit "...".
Proof.
  split; [reflexivity|].
  apply (card_description_of_blanks Sample.moss (lit "   ") eq_refl).
  - discriminate.
  - vm_compute. by repeat constructor.
Defined.

(** The author opens the detail dialog, then the edit dialog, and saves
    the untouched form. *)
Lemma wren_saved :
  steps Sample.has_scheme Sample.wren (lit "user-2") (mount Sample.wren)
    (exec (submit Sample.has_scheme Sample.wren)
       (exec (setIsEditing true) (exec (setOpen true) (mount Sample.wren)))).
Proof.
  eapply steps_step; [eapply steps_step; [eapply steps_step; [apply steps_refl|]|]|].
  - apply (step_click _ _ _ (mount Sample.wren) (lit "Learn More") (setOpen true)).
    rewrite screen_eq, !elem_of_app. left. apply (buttons_detail Sample.has_scheme). left. split; reflexivity.
  - apply (step_click _ _ _ _ (lit "Edit Species") (setIsEditing true)).
    rewrite screen_eq, !elem_of_app. left. apply (buttons_detail Sample.has_scheme).
    right. split; [reflexivity|]. left. split; [reflexivity|]. left. split; reflexivity.
  - apply (step_submit _ _ _ _ (submit Sample.has_scheme Sample.wren)).
    by apply submit_on_screen.
Qed.

Lemma wren_saved_effects :
  let w := exec (submit Sample.has_scheme Sample.wren)
             (exec (setIsEditing true) (exec (setOpen true) (mount Sample.wren))) in
  let data := (zodResolver Sample.has_scheme (values (form (mount Sample.wren)))).2 in
  effects w = [Request (update "species" data "id" (id Sample.wren))] /\
  awaiting w = [update "species" data "id" (id Sample.wren)].
Proof. cbn zeta. split; vm_compute; reflexivity. Qed.

(** Another user opens the detail dialog of a record: nothing else has
    happened. *)
Lemma other_sessions_send_nothing_witness :
  let w := exec (setOpen true) (mount Sample.lion) in
  author Sample.lion <> lit "user-2" /\
  steps Sample.has_scheme Sample.lion (lit "user-2") (mount Sample.lion) w /\
  isEditing w = false /\ effects w = [].
Proof.
  cbn zeta.
  assert (Hne : author Sample.lion <> lit "user-2") by (vm_compute; discriminate).
  assert (Hs : steps Sample.has_scheme Sample.lion (lit "user-2")
                 (mount Sample.lion) (exec (setOpen true) (mount Sample.lion))).
  { eapply steps_step; [apply steps_refl|].
    apply (step_click _ _ _ (mount Sample.lion) (lit "Learn More") (setOpen true)).
    rewrite screen_eq, !elem_of_app. left. apply (buttons_detail Sample.has_scheme). left. split; reflexivity. }
  split; [exact Hne|]. split; [exact Hs|].
  destruct (other_sessions_send_nothing Sample.has_scheme Sample.lion
              (lit "user-2") _ Hne Hs) as (H1 & _ & _ & H2 & _).
  by split.
Defined.

(** The update the author sends by saving is keyed by the identifier of
    the record and carries no author. *)
Lemma requests_address_the_record_witness :
  let w := exec (submit Sample.has_scheme Sample.wren)
             (exec (setIsEditing true) (exec (setOpen true) (mount Sample.wren))) in
  let data := (zodResolver Sample.has_scheme (values (form (mount Sample.wren)))).2 in
  let r := update "species" data "id" (id Sample.wren) in
  Request r ∈ effects w /\
  exists data', r = update "species" data' "id" (id Sample.wren) /\
                data' !! "author" = None.
Proof.
  cbn zeta.
  assert (Hin : Request (update "species"
                  (zodResolver Sample.has_scheme (values (form (mount Sample.wren)))).2
                  "id" (id Sample.wren))
                ∈ effects (exec (submit Sample.has_scheme Sample.wren)
                    (exec (setIsEditing true) (exec (setOpen true) (mount Sample.wren))))).
  { rewrite (proj1 wren_saved_effects). apply list_elem_of_here. }
  split; [exact Hin|].
  destruct (requests_address_the_record Sample.has_scheme Sample.wren
              (lit "user-2") _ _ wren_saved Hin) as [H | (data' & H1 & _ & H2)].
  - discriminate H.
  - by exists data'.
Defined.

(** One request sent, none answered yet: no toast. *)
Lemma one_toast_per_answer_witness :
  let w := exec (submit Sample.has_scheme Sample.wren)
             (exec (setIsEditing true) (exec (setOpen true) (mount Sample.wren))) in
  List.length (requests (effects w))
    = (List.length (notifications (effects w)) + List.length (awaiting w))%nat.
Proof.
  cbn zeta.
  apply (one_toast_per_answer Sample.has_scheme Sample.wren (lit "user-2")).
  exact wren_saved.
Defined.

(** The untouched form of a valid record: the image and the endangered
    flag go out as the form holds them. *)
Lemma sent_data_is_form_values_witness :
  let vs := values (form (mount Sample.wren)) in
  passes_schema Sample.has_scheme vs /\
  (zodResolver Sample.has_scheme vs).2 !! "image"
    = Some (VStr (lit "https://example.org/wren.png")) /\
  (zodResolver Sample.has_scheme vs).2 !! "endangered" = Some (VBool false).
Proof.
  cbn zeta.
  assert (Hp : passes_schema Sample.has_scheme (values (form (mount Sample.wren)))).
  { apply resolver_valid_iff. vm_compute. reflexivity. }
  split; [exact Hp|].
  destruct (sent_data_is_form_values Sample.has_scheme
              (values (form (mount Sample.wren))) "image" Hp) as [H1 H2].
  - elem_here.
  - split; [exact H1 | exact H2].
Defined.

(** 42 typed into the Total Population input. *)
Lemma inputs_edit_own_field_witness :
  let w := exec (setIsEditing true) (exec (setOpen true) (mount Sample.wren)) in
  let h := change_number Sample.has_scheme "total_population" in
  let w' := exec (h (Sample.typed_number (lit "42"))) w in
  input (lit "total_population") (lit "number") h
    ∈ screen Sample.has_scheme Sample.wren (lit "user-2") w /\
  effects w' = effects w /\ isEditing w' = isEditing w.
Proof.
  cbn zeta.
  assert (Hin : input (lit "total_population") (lit "number")
                  (change_number Sample.has_scheme "total_population")
                ∈ screen Sample.has_scheme Sample.wren (lit "user-2")
                    (exec (setIsEditing true) (exec (setOpen true) (mount Sample.wren)))).
  { apply edit_dialog_on_screen. rewrite controls_edit. cbn [isEditing exec snd setIsEditing].
    elem_here. }
  split; [exact Hin|].
  destruct (inputs_edit_own_field Sample.has_scheme Sample.wren (lit "user-2")
              _ _ _ _ (Sample.typed_number (lit "42")) Hin eq_refl)
    as (H1 & _ & _ & H2 & _).
  by split.
Defined.

(** Text that is no URL, typed into the Image URL input. *)
Lemma image_error_follows_input_witness :
  let w := exec (setIsEditing true) (exec (setOpen true) (mount Sample.wren)) in
  let w' := exec (change_text Sample.has_scheme "image"
                    (Sample.typed (lit "not a url"))) w in
  isEditing w = true /\
  errors (form w') !! "image" = Some Zod.invalid_url.
Proof.
  cbn zeta. split; [reflexivity|].
  destruct (image_error_follows_input Sample.has_scheme Sample.wren (lit "user-2")
              (exec (setIsEditing true) (exec (setOpen true) (mount Sample.wren)))
              (Sample.typed (lit "not a url")) eq_refl eq_refl) as (H & _).
  exact H.
Defined.

(** The untouched form of a valid record saved twice in a row. *)
Lemma double_submission_sends_twice_witness :
  let w := exec (setIsEditing true) (exec (setOpen true) (mount Sample.wren)) in
  let data := (zodResolver Sample.has_scheme (values (form w))).2 in
  let r := update "species" data "id" (id Sample.wren) in
  let submit := submit Sample.has_scheme Sample.wren in
  zodResolver Sample.has_scheme (values (form w)) = (∅, data) /\
  effects (exec submit (exec submit w)) = [Request r; Request r].
Proof.
  cbn zeta.
  assert (Hvalid : zodResolver Sample.has_scheme (values (form
            (exec (setIsEditing true) (exec (setOpen true) (mount Sample.wren)))))
          = (∅, (zodResolver Sample.has_scheme (values (form
            (exec (setIsEditing true) (exec (setOpen true) (mount Sample.wren)))))).2))
    by (vm_compute; reflexivity).
  split; [exact Hvalid|].
  destruct (double_submission_sends_twice Sample.has_scheme Sample.wren
              (exec (setIsEditing true) (exec (setOpen true) (mount Sample.wren)))
              _ Hvalid) as (H & _).
  exact H.
Defined.

(** Saved, accepted, and saved again. *)
Lemma resubmission_sends_same_data_witness :
  let vs := values (form (mount Sample.wren)) in
  let data := (zodResolver Sample.has_scheme vs).2 in
  let r := update "species" data "id" (id Sample.wren) in
  let w1 := exec (resume r None)
              (exec (answered 0)
                 (exec (submit Sample.has_scheme Sample.wren)
                    (exec (setIsEditing true) (mount Sample.wren)))) in
  (zodResolver Sample.has_scheme vs).1 = ∅ /\
  values (form w1) = data /\
  awaiting (exec (submit Sample.has_scheme Sample.wren) w1) = [r].
Proof.
  cbn zeta.
  assert (Hok : (zodResolver Sample.has_scheme
                   (values (form (mount Sample.wren)))).1 = ∅)
    by (vm_compute; reflexivity).
  split; [exact Hok|].
  destruct (resubmission_sends_same_data Sample.has_scheme Sample.wren
              (exec (answered 0)
                 (exec (submit Sample.has_scheme Sample.wren)
                    (exec (setIsEditing true) (mount Sample.wren))))
              _ Hok) as (H1 & _ & _ & _ & H2).
  split; [exact H1|]. rewrite H2. vm_compute. reflexivity.
Defined.

(** Learn More on the closed card. *)
Lemma other_controls_send_nothing_witness :
  button (lit "Learn More") (setOpen true)
    ∈ screen Sample.has_scheme Sample.lion (lit "user-1") (mount Sample.lion) /\
  lit "Learn More" <> lit "Save Changes" /\
  lit "Learn More" <> lit "Confirm Delete" /\
  effects (exec (setOpen true) (mount Sample.lion)) = [].
Proof.
  assert (Hin : button (lit "Learn More") (setOpen true)
                ∈ screen Sample.has_scheme Sample.lion (lit "user-1")
                    (mount Sample.lion)).
  { rewrite screen_eq, !elem_of_app. left. apply (buttons_detail Sample.has_scheme). left. split; reflexivity. }
  assert (H1 : lit "Learn More" <> lit "Save Changes")
    by (vm_compute; discriminate).
  assert (H2 : lit "Learn More" <> lit "Confirm Delete")
    by (vm_compute; discriminate).
  split; [exact Hin|]. split; [exact H1|]. split; [exact H2|].
  destruct (other_controls_send_nothing Sample.has_scheme Sample.lion
              (lit "user-1") _ _ _ Hin H1 H2) as ((_ & H & _) & _).
  exact H.
Defined.

(** A kingdom typed, the dialog cancelled and opened again. *)
Lemma edits_survive_cancel_witness :
  let w := exec (setIsEditing true) (exec (setOpen true) (mount Sample.wren)) in
  let w1 := exec (change_text Sample.has_scheme "kingdom"
                    (Sample.typed (lit "Aves"))) w in
  let w2 := exec (setIsEditing true) (exec (setIsEditing false) w1) in
  exists tag ps,
    at_path [5; 0; 1; 0; 2; 0; 1; 0]%nat
      (SpeciesCard Sample.has_scheme Sample.wren (lit "user-2") w2)
      = Some (elem tag ps []) /\
    get_attr "value" ps = VStr (lit "Aves").
Proof.
  cbn zeta.
  destruct (edits_survive_cancel Sample.has_scheme Sample.wren (lit "user-2")
              (exec (setIsEditing true) (exec (setOpen true) (mount Sample.wren)))
              "kingdom" 2 (Sample.typed (lit "Aves")))
    as (_ & tag & ps & H1 & _ & H2).
  - elem_here.
  - by left.
  - by exists tag, ps.
Defined.

(** A kingdom typed while the update is waited on, which then succeeds. *)
Lemma accepted_update_discards_later_edits_witness :
  let w := exec (setIsEditing true) (exec (setOpen true) (mount Sample.wren)) in
  let data := (zodResolver Sample.has_scheme (values (form w))).2 in
  let r := update "species" data "id" (id Sample.wren) in
  let w2 := exec (change_text Sample.has_scheme "kingdom"
                    (Sample.typed (lit "Aves")))
              (exec (submit Sample.has_scheme Sample.wren) w) in
  let w3 := exec (answered 0;; resume r None) w2 in
  zodResolver Sample.has_scheme (values (form w)) = (∅, data) /\
  get (values (form w2)) "kingdom" = VStr (lit "Aves") /\
  get (values (form w3)) "kingdom" = VStr (lit "Animalia").
Proof.
  cbn zeta.
  assert (Hvalid : zodResolver Sample.has_scheme (values (form
            (exec (setIsEditing true) (exec (setOpen true) (mount Sample.wren)))))
          = (∅, (zodResolver Sample.has_scheme (values (form
            (exec (setIsEditing true) (exec (setOpen true) (mount Sample.wren)))))).2))
    by (vm_compute; reflexivity).
  split; [exact Hvalid|].
  destruct (accepted_update_discards_later_edits Sample.has_scheme Sample.wren
              (exec (setIsEditing true) (exec (setOpen true) (mount Sample.wren)))
              _ "kingdom" (Sample.typed (lit "Aves")) Hvalid)
    as (_ & H1 & _ & H2 & _).
  - unfold text_fields. elem_here.
  - by left.
  - split; [exact H1|]. refine (eq_trans H2 _). vm_compute. reflexivity.
Defined.
